(** * Transaction normalizer of app.py: a shallow embedding

    The development follows [src/app.py]: the keyword categorizer
    ([categorize]), the column detector ([_detect_columns]), the
    normalization and aggregation pass ([process_transactions]), the
    question-answering call ([ask_ai]) and the two HTTP operations
    ([upload_excel], [query_financial]).

    Modelling choices, fixed once for the whole file:
    - Python [str] is [string]; [lower] and [strip] act on the ASCII range
      (characters above 127 are left untouched).
    - Amounts are exact rationals [Q]; a missing number (NaN) is [None].
      The sums of the summary are the exact sums of the rows the program
      adds; the program itself adds them in machine arithmetic (binary64,
      or int64 for an integer column), which keeps which rows enter which
      sum but not the identities between sums.  The binary64
      sums of lines 149-151 are given next to the exact ones ([sum64],
      [total_income64], [total_expense64], [net_balance64]), and equalities
      between exact sums are stated with [Qeq].
    - The normalization is modelled for tables whose column labels are
      strings and whose date column pandas converts to a datetime64 column;
      the upload is modelled on a machine whose files are named by the path
      string they were written at.
    - A pandas Series is a total function of the row position, a DataFrame
      carries its row count and its named columns in order.  Selecting a
      column by name yields a Series only when the name is unique, hence the
      [unique_columns] side condition of the general theorems.
    - The scalar conversions that pandas and Python own (parsing a number or
      a date out of a string, printing a number) are taken as a record of
      functions, [Coercions]; theorems hold for every such record. *)

From Stdlib Require Import String Ascii List Bool Arith ZArith QArith Lia.
From Stdlib Require Import DecimalString Sorted OrderedTypeEx Floats.
Import ListNotations.
Local Open Scope string_scope.

(** ** Python string operations *)

Definition is_upper (c : ascii) : bool :=
  let n := nat_of_ascii c in (65 <=? n)%nat && (n <=? 90)%nat.

Definition lower_char (c : ascii) : ascii :=
  if is_upper c then ascii_of_nat (nat_of_ascii c + 32) else c.

(** [s.lower()] *)
Fixpoint lower (s : string) : string :=
  match s with
  | EmptyString => EmptyString
  | String c s' => String (lower_char c) (lower s')
  end.

(** [k in s] for two strings *)
Fixpoint contains (k s : string) : bool :=
  prefix k s ||
  match s with
  | EmptyString => false
  | String _ s' => contains k s'
  end.

(** [c.isspace()] on the ASCII range *)
Definition is_space (c : ascii) : bool :=
  let n := nat_of_ascii c in
  ((9 <=? n)%nat && (n <=? 13)%nat) || ((28 <=? n)%nat && (n <=? 32)%nat).

Fixpoint lstrip (s : string) : string :=
  match s with
  | EmptyString => EmptyString
  | String c s' => if is_space c then lstrip s' else s
  end.

Fixpoint rstrip (s : string) : string :=
  match s with
  | EmptyString => EmptyString
  | String c s' =>
      match rstrip s' with
      | EmptyString => if is_space c then EmptyString else String c EmptyString
      | r => String c r
      end
  end.

(** [s.strip()] *)
Definition strip (s : string) : string := rstrip (lstrip s).

(** [s.endswith(suffix)] *)
Fixpoint endswith (s suffix : string) : bool :=
  (s =? suffix) ||
  match s with
  | EmptyString => false
  | String _ s' => endswith s' suffix
  end.

(** Truthiness of a string and of an optional string ([None] and the empty
    string are false). *)
Definition truthy_str (s : string) : bool :=
  match s with EmptyString => false | _ => true end.

Definition truthy (o : option string) : bool :=
  match o with Some s => truthy_str s | None => false end.

(** ** Scalars, Series and DataFrames *)

Record Timestamp := { ts_year : N; ts_month : N; ts_day : N }.

(** A cell of an object column: empty (None/NaN), a number or a string. *)
Inductive Cell :=
| CNull
| CNum (q : Q)
| CStr (s : string).

(** A column, by dtype. *)
Inductive Series :=
| Objects (v : nat -> Cell)
| Floats (v : nat -> option Q)
| Datetimes (v : nat -> option Timestamp).

Record DataFrame := {
  nrows : nat;
  data : list (string * Series)
}.

(** [df.columns] *)
Definition columns (df : DataFrame) : list string := map fst (data df).

(** [df.empty]: no rows or no columns. *)
Definition df_empty (df : DataFrame) : bool :=
  (nrows df =? 0)%nat || match data df with [] => true | _ => false end.

(** [c in df.columns] *)
Definition has_column (df : DataFrame) (c : string) : bool :=
  existsb (String.eqb c) (columns df).

(** [df.columns = df.columns.str.strip()], the labels being strings *)
Definition strip_columns (df : DataFrame) : DataFrame :=
  {| nrows := nrows df;
     data := map (fun p => (strip (fst p), snd p)) (data df) |}.

Fixpoint nodupb (l : list string) : bool :=
  match l with
  | [] => true
  | x :: l' => negb (existsb (String.eqb x) l') && nodupb l'
  end.

(** The trimmed column names are pairwise different. *)
Definition unique_columns (df : DataFrame) : bool :=
  nodupb (columns (strip_columns df)).

(** A column given by the list of its cells (rows past the end are empty). *)
Definition objects_of (l : list Cell) : Series :=
  Objects (fun i => nth i l CNull).

(** ** Exceptions *)

Inductive Message :=
| FailedToRead (detail : string)
| NoData
| ColumnsNotDetected (found : list string)
| ReplaceDictValue.

Inductive Exception :=
| ValueError (m : Message)
| KeyError (key : string)
| TypeError.

Inductive Result (A : Type) :=
| Ok (a : A)
| Raise (e : Exception).

Arguments Ok {A} a.
Arguments Raise {A} e.

Definition bind {A B : Type} (r : Result A) (k : A -> Result B) : Result B :=
  match r with
  | Ok a => k a
  | Raise e => Raise e
  end.

Declare Scope result_scope.
Delimit Scope result_scope with result.
Notation "x <- r ;; k" := (bind r (fun x => k))
  (at level 61, r at next level, right associativity) : result_scope.
Local Open Scope result_scope.

Fixpoint assoc {A : Type} (c : string) (l : list (string * A)) : option A :=
  match l with
  | [] => None
  | (c', a) :: l' => if c =? c' then Some a else assoc c l'
  end.

(** [df[c]] *)
Definition df_getitem (df : DataFrame) (c : string) : Result Series :=
  match assoc c (data df) with
  | Some s => Ok s
  | None => Raise (KeyError c)
  end.

Fixpoint set_assoc {A : Type} (c : string) (a : A) (l : list (string * A))
  : list (string * A) :=
  match l with
  | [] => [(c, a)]
  | (c', a') :: l' =>
      if c =? c' then (c', a) :: l' else (c', a') :: set_assoc c a l'
  end.

(** [df[c] = s]: overwrite the column in place, or append it. *)
Definition df_setitem (df : DataFrame) (c : string) (s : Series) : DataFrame :=
  {| nrows := nrows df; data := set_assoc c s (data df) |}.

(** ** Conversions owned by pandas and Python *)

Record Coercions := {
  (** the number a string denotes, for [pd.to_numeric(..., errors="coerce")] *)
  parse_float : string -> option Q;
  (** [str(x)] of a number *)
  repr_float : Q -> string;
  (** the date a string denotes, for [pd.to_datetime(..., errors="coerce")] *)
  parse_datetime : string -> option Timestamp;
  (** the date a number denotes (an offset from the epoch) *)
  datetime_of_float : Q -> option Timestamp;
  (** the number pandas gives for a datetime64 value *)
  float_of_datetime : option Timestamp -> option Q;
  (** [str(t)] of a timestamp *)
  repr_datetime : Timestamp -> string
}.

(** Decimal digits of [n], left-padded with zeros to [width]. *)
Fixpoint zero_pad (k : nat) (s : string) : string :=
  match k with
  | O => s
  | S k' => String "0"%char (zero_pad k' s)
  end.

Definition zfill (width : nat) (n : N) : string :=
  let s := NilEmpty.string_of_uint (N.to_uint n) in
  let s := match s with EmptyString => "0" | _ => s end in
  zero_pad (width - String.length s) s.

(** [t.strftime("%Y-%m")] *)
Definition strftime_Ym (t : Timestamp) : string :=
  zfill 4 (ts_year t) ++ "-" ++ zfill 2 (ts_month t).

(** ** Aggregation *)

Definition nan_to_zero (o : option Q) : Q :=
  match o with Some q => q | None => 0 end.

(** Exact sum of [v] over the rows [0 .. n-1] that satisfy [keep], NaN
    skipped: the number that [s[mask].sum()] approximates in binary64. *)
Definition sum_where (keep : nat -> bool) (n : nat) (v : nat -> option Q) : Q :=
  fold_left (fun acc i => if keep i then acc + nan_to_zero (v i) else acc)
            (seq 0 n) 0.

(** [s.sum()] *)
Definition sum_rows (n : nat) (v : nat -> option Q) : Q :=
  sum_where (fun _ => true) n v.

(** [x > 0] and [x < 0] on a float cell; NaN compares false. *)
Definition is_positive (o : option Q) : bool :=
  match o with Some q => negb (Qle_bool q 0) | None => false end.

Definition is_negative (o : option Q) : bool :=
  match o with Some q => negb (Qle_bool 0 q) | None => false end.

(** Add [v] to the bucket of key [k]; buckets are kept sorted by key, as
    [groupby] does. *)
Fixpoint bucket_add (k : string) (v : Q) (m : list (string * Q))
  : list (string * Q) :=
  match m with
  | [] => [(k, v)]
  | (k', v') :: m' =>
      match String.compare k k' with
      | Eq => (k', v' + v) :: m'
      | Lt => (k, v) :: m
      | Gt => (k', v') :: bucket_add k v m'
      end
  end.

(** [groupby(keys)[vals].sum().to_dict()] with exact sums: rows whose key is
    missing are dropped, a missing value counts as 0. *)
Definition group_sum (n : nat) (keys : nat -> option string)
  (vals : nat -> option Q) : list (string * Q) :=
  fold_left (fun m i =>
               match keys i with
               | Some k => bucket_add k (nan_to_zero (vals i)) m
               | None => m
               end)
            (seq 0 n) [].

(** Sum of the values of a summary dictionary. *)
Definition sum_values (m : list (string * Q)) : Q :=
  fold_right (fun p acc => snd p + acc) 0 m.

(** The summary of lines 146-155, its numbers being exact sums. *)
Record Summary := {
  total_income : Q;
  total_expense : Q;
  net_balance : Q;
  monthly_summary : list (string * Q);
  category_summary : list (string * Q);
  rows : nat
}.

(** What reading the uploaded file gave (lines 84-90). *)
Inductive ReadOutcome :=
| ReadFailed (detail : string)
| ReadFrame (df : DataFrame).

Fixpoint find_index {A : Type} (p : A -> bool) (l : list A) : option nat :=
  match l with
  | [] => None
  | x :: l' => if p x then Some 0%nat else option_map S (find_index p l')
  end.

(** The last element satisfying [p] (a loop that overwrites on each hit). *)
Definition find_last {A : Type} (p : A -> bool) (l : list A) : option A :=
  fold_left (fun acc x => if p x then Some x else acc) l None.

Definition in_list (s : string) (l : list string) : bool :=
  existsb (String.eqb s) l.

(** The [for i, c in enumerate(cols_lower)] loops of [_detect_columns]:
    the column at the first position whose lower-cased name satisfies [p]. *)
Definition first_by_lower (p : string -> bool) (cols cols_lower : list string)
  : list string :=
  match find_index p cols_lower with
  | Some i => match nth_error cols i with Some c => [c] | None => [] end
  | None => []
  end.

Definition desc_vocabulary : list string :=
  ["description"; "narration"; "details"; "remarks"; "particulars"].

Definition amt_vocabulary : list string :=
  ["amount"; "amt"; "value"; "debit"; "credit"].

(** [_detect_columns(df)] (lines 54-77) *)
Definition _detect_columns (df : DataFrame)
  : option string * option string * option string :=
  let cols := map strip (columns df) in
  let cols_lower := map lower cols in
  let desc_candidates :=
    filter (fun c => in_list (lower c) desc_vocabulary) cols in
  let desc_candidates :=
    match desc_candidates with
    | [] => first_by_lower
              (fun c => contains "desc" c || contains "narr" c
                        || contains "particular" c) cols cols_lower
    | _ => desc_candidates
    end in
  let amt_candidates :=
    filter (fun c => contains "amount" (lower c)
                     || in_list (lower c) amt_vocabulary) cols in
  let amt_candidates :=
    match amt_candidates with
    | [] => first_by_lower
              (fun c => contains "amt" c || contains "debit" c
                        || contains "credit" c || contains "balance" c)
              cols cols_lower
    | _ => amt_candidates
    end in
  let date_candidates :=
    filter (fun c => contains "date" (lower c)
                     || contains "txn date" (lower c)
                     || contains "transaction date" (lower c)) cols in
  (hd_error desc_candidates, hd_error amt_candidates, hd_error date_candidates).

Section Normalizer.

Variable P : Coercions.

(** [str(x)] of a cell that is a number or a string. *)
Definition str_of_cell (c : Cell) : string :=
  match c with
  | CNull => "nan"
  | CNum q => repr_float P q
  | CStr s => s
  end.

(** [categorize(desc)] (lines 35-51) *)
Definition categorize (desc : Cell) : string :=
  match desc with
  | CNull => "Others"
  | _ =>
      let desc := lower (str_of_cell desc) in
      if contains "salary" desc then "Income"
      else if contains "fuel" desc || contains "diesel" desc then "Fuel"
      else if contains "zomato" desc || contains "swiggy" desc
              || contains "restaurant" desc then "Food"
      else if contains "amazon" desc || contains "flipkart" desc then "Shopping"
      else if contains "mutual fund" desc || contains "sip" desc
           then "Investments"
      else if contains "upi" desc || contains "transfer" desc
              || contains "google pay" desc || contains "gpay" desc
           then "Transfers"
      else "Others"
  end.

(** The value of a column at a row, as the Python object [apply] hands to
    its function. *)
Definition cell_at (s : Series) (i : nat) : Cell :=
  match s with
  | Objects v => v i
  | Floats v => match v i with Some q => CNum q | None => CNull end
  | Datetimes v =>
      match v i with Some t => CStr (repr_datetime P t) | None => CNull end
  end.

(** [pd.to_numeric(s, errors="coerce")] *)
Definition to_numeric (s : Series) : nat -> option Q :=
  match s with
  | Objects v => fun i =>
      match v i with
      | CNull => None
      | CNum q => Some q
      | CStr x => parse_float P x
      end
  | Floats v => v
  | Datetimes v => fun i => float_of_datetime P (v i)
  end.

(** [pd.to_datetime(s, errors="coerce")], where it returns a datetime64
    column: a cell that does not parse becomes missing.  (pandas raises on
    dates with mixed UTC offsets; such columns are outside the model.) *)
Definition to_datetime (s : Series) : nat -> option Timestamp :=
  match s with
  | Objects v => fun i =>
      match v i with
      | CNull => None
      | CNum q => datetime_of_float P q
      | CStr x => parse_datetime P x
      end
  | Floats v => fun i =>
      match v i with Some q => datetime_of_float P q | None => None end
  | Datetimes v => v
  end.

(** [s.fillna(EMPTY).astype(str)], EMPTY being the empty string *)
Definition fillna_astype_str (s : Series) : nat -> string :=
  fun i =>
    match cell_at s i with
    | CNull => EmptyString
    | c => str_of_cell c
    end.

(** [s.isna().all()] *)
Definition isna_all (n : nat) (v : nat -> option Q) : bool :=
  forallb (fun i => match v i with None => true | Some _ => false end)
          (seq 0 n).

(** [s.fillna(0)] on a float column *)
Definition fillna0 (v : nat -> option Q) : nat -> option Q :=
  fun i => Some (nan_to_zero (v i)).

(** The numbers of a float column; arithmetic on another dtype is a
    [TypeError]. *)
Definition float_values (s : Series) : Result (nat -> option Q) :=
  match s with
  | Floats v => Ok v
  | _ => Raise TypeError
  end.

(** The keys [groupby] forms from a column; missing values give no key. *)
Definition group_key (s : Series) : nat -> option string :=
  fun i =>
    match cell_at s i with
    | CNull => None
    | c => Some (str_of_cell c)
    end.

(** [df.groupby(by)[col].sum().to_dict()] *)
Definition groupby_sum (df : DataFrame) (by_ col : string)
  : Result (list (string * Q)) :=
  keys <- df_getitem df by_ ;;
  s <- df_getitem df col ;;
  vals <- float_values s ;;
  Ok (group_sum (nrows df) (group_key keys) vals).

(** [s.replace(to_replace, value)] with a scalar [to_replace] and a Series
    [value]: pandas takes a Series value for a dict-like one and, on a
    Series (one dimension), refuses it with
    [ValueError("Series.replace cannot use dict-value and non-None
    to_replace")]; an empty Series is returned as it is. *)
Definition Series_replace (n : nat) (s : Series) (to_replace : string)
  (value : Series) : Result Series :=
  if (n =? 0)%nat then Ok s else Raise (ValueError ReplaceDictValue).

(** Line 101: the Description column, [df[desc_col]] with empty cells filled
    by the empty string and every cell turned into a [str]. *)
Definition assign_description (df : DataFrame) (desc_col : string)
  : Result DataFrame :=
  s <- df_getitem df desc_col ;;
  Ok (df_setitem df "Description"
        (Objects (fun i => CStr (fillna_astype_str s i)))).

(** Lines 102-105: the primary amount; a failing selection falls back to
    [df.get(amt_col, pd.Series([0]*len(df)))]. *)
Definition assign_amount (df : DataFrame) (amt_col : string) : DataFrame :=
  match df_getitem df amt_col with
  | Ok s => df_setitem df "Amount" (Floats (to_numeric s))
  | Raise _ => df_setitem df "Amount" (Floats (fun _ => Some 0))
  end.

(** Lines 107-114: the last columns named debit and credit. *)
Definition debit_column (df : DataFrame) : option string :=
  find_last (fun c => "debit" =? lower c) (columns df).

Definition credit_column (df : DataFrame) : option string :=
  find_last (fun c => "credit" =? lower c) (columns df).

(** Lines 115-117: the debit/credit fallback. *)
Definition debit_credit_fallback (df : DataFrame) : Result DataFrame :=
  match debit_column df, credit_column df with
  | Some debit_col, Some credit_col =>
      if truthy_str debit_col && truthy_str credit_col then
        amount <- df_getitem df "Amount" ;;
        if isna_all (nrows df) (to_numeric amount) then
          credit <- df_getitem df credit_col ;;
          debit <- df_getitem df debit_col ;;
          let c := fillna0 (to_numeric credit) in
          let d := fillna0 (to_numeric debit) in
          Ok (df_setitem df "Amount"
                (Floats (fun i => Some (nan_to_zero (c i) - nan_to_zero (d i)))))
        else Ok df
      else Ok df
  | _, _ => Ok df
  end.

(** Line 118: [df["Amount"] = pd.to_numeric(df["Amount"]).fillna(0.0)] *)
Definition final_coercion (df : DataFrame) : Result DataFrame :=
  amount <- df_getitem df "Amount" ;;
  Ok (df_setitem df "Amount" (Floats (fillna0 (to_numeric amount)))).

Definition date_fallback_names : list string :=
  ["Date"; "date"; "Txn Date"; "Transaction Date"].

(** Lines 120-132: the Date column. *)
Definition assign_date (df : DataFrame) (date_col : option string)
  : Result DataFrame :=
  match date_col with
  | Some c =>
      if truthy_str c && has_column df c then
        s <- df_getitem df c ;;
        Ok (df_setitem df "Date" (Datetimes (to_datetime s)))
      else
        match find (has_column df) date_fallback_names with
        | Some cand =>
            s <- df_getitem df cand ;;
            Ok (df_setitem df "Date" (Datetimes (to_datetime s)))
        | None => Ok df
        end
  | None =>
      match find (has_column df) date_fallback_names with
      | Some cand =>
          s <- df_getitem df cand ;;
          Ok (df_setitem df "Date" (Datetimes (to_datetime s)))
      | None => Ok df
      end
  end.

Definition month_cell (o : option Timestamp) : Cell :=
  match o with Some t => CStr (strftime_Ym t) | None => CNull end.

Definition no_month (df : DataFrame) : DataFrame :=
  df_setitem df "Month" (Objects (fun _ => CNull)).

(** Lines 134-139: the Month column and the monthly summary. *)
Definition assign_month (df : DataFrame)
  : Result (DataFrame * list (string * Q)) :=
  if has_column df "Date" then
    date <- df_getitem df "Date" ;;
    match date with
    | Datetimes v =>
        let df := df_setitem df "Month" (Objects (fun i => month_cell (v i))) in
        monthly <- groupby_sum df "Month" "Amount" ;;
        Ok (df, monthly)
    | _ => Ok (no_month df, [])
    end
  else Ok (no_month df, []).

(** [s.apply(categorize)] *)
Definition apply_categorize (s : Series) : Series :=
  Objects (fun i => CStr (categorize (cell_at s i))).

(** [s.fillna(EMPTY)] on the category column *)
Definition fillna_empty (s : Series) : Series :=
  Objects (fun i =>
             match cell_at s i with CNull => CStr EmptyString | c => c end).

(** Lines 141-144: the Category column. *)
Definition assign_category (df : DataFrame) : Result DataFrame :=
  if negb (has_column df "Category") then
    desc <- df_getitem df "Description" ;;
    Ok (df_setitem df "Category" (apply_categorize desc))
  else
    cat <- df_getitem df "Category" ;;
    desc <- df_getitem df "Description" ;;
    replaced <- Series_replace (nrows df) (fillna_empty cat) EmptyString
                  (apply_categorize desc) ;;
    Ok (df_setitem df "Category" replaced).

(** Lines 146-155: the summary. *)
Definition summarize (df : DataFrame) (monthly : list (string * Q))
  : Result Summary :=
  by_category <- groupby_sum df "Category" "Amount" ;;
  amount <- df_getitem df "Amount" ;;
  v <- float_values amount ;;
  Ok {| total_income := sum_where (fun i => is_positive (v i)) (nrows df) v;
        total_expense := sum_where (fun i => is_negative (v i)) (nrows df) v;
        net_balance := sum_rows (nrows df) v;
        monthly_summary := monthly;
        category_summary := by_category;
        rows := nrows df |}.

(** Lines 101-157, once the description and amount columns are known. *)
Definition normalize (df : DataFrame) (desc_col amt_col : string)
  (date_col : option string) : Result (DataFrame * Summary) :=
  df <- assign_description df desc_col ;;
  df <- debit_credit_fallback (assign_amount df amt_col) ;;
  df <- final_coercion df ;;
  df <- assign_date df date_col ;;
  dm <- assign_month df ;;
  df <- assign_category (fst dm) ;;
  summary <- summarize df (snd dm) ;;
  Ok (df, summary).

(** [process_transactions(file_path)] (lines 83-157), from what reading the
    file gave. *)
Definition process_transactions (read : ReadOutcome)
  : Result (DataFrame * Summary) :=
  match read with
  | ReadFailed e => Raise (ValueError (FailedToRead e))
  | ReadFrame df =>
      if df_empty df then Raise (ValueError NoData)
      else
        let df := strip_columns df in
        match _detect_columns df with
        | (desc_col, amt_col, date_col) =>
            if negb (truthy desc_col) || negb (truthy amt_col) then
              Raise (ValueError (ColumnsNotDetected (columns df)))
            else
              match desc_col, amt_col with
              | Some d, Some a => normalize df d a date_col
              | _, _ => Raise TypeError
              end
        end
  end.

End Normalizer.

(** ** The question-answering call *)

(** Python values of the shapes a completion response may take. *)
#[warnings="-register-all"]
Inductive Py :=
| PyNone
| PyStr (s : string)
| PyDict (items : list (string * Py))
| PyObject (attrs : list (string * Py))
| PyList (elems : list Py).

Definition py_truthy (v : Py) : bool :=
  match v with
  | PyNone => false
  | PyStr s => truthy_str s
  | PyDict items => match items with [] => false | _ => true end
  | PyObject _ => true
  | PyList elems => match elems with [] => false | _ => true end
  end.

(** [a or b] *)
Definition py_or (a b : Py) : Py := if py_truthy a then a else b.

(** [d.get(k)] *)
Definition dict_get (items : list (string * Py)) (k : string) : Py :=
  match assoc k items with Some v => v | None => PyNone end.

(** [getattr(o, name, None)] *)
Definition getattr (o : Py) (name : string) : Py :=
  match o with
  | PyObject attrs => match assoc name attrs with Some v => v | None => PyNone end
  | _ => PyNone
  end.

(** [v[0]]; [None] when the subscript raises. *)
Definition subscript0 (v : Py) : option Py :=
  match v with
  | PyList (x :: _) => Some x
  | PyStr (String c _) => Some (PyStr (String c EmptyString))
  | _ => None
  end.

(** Lines 196-210: the content of the first choice. *)
Definition extract_content (response : Py) : option Py :=
  let choices := getattr response "choices" in
  if py_truthy choices then
    match subscript0 choices with
    | None => None
    | Some first =>
        match first with
        | PyDict items =>
            let msg := py_or (py_or (dict_get items "message")
                                    (dict_get items "text")) first in
            match msg with
            | PyDict m => Some (py_or (dict_get m "content") (dict_get m "text"))
            | PyStr s => Some msg
            | _ => Some PyNone
            end
        | _ =>
            let msg := py_or (py_or (getattr first "message")
                                    (getattr first "text")) first in
            match msg with
            | PyDict m => Some (py_or (dict_get m "content") (dict_get m "text"))
            | _ => Some (py_or (getattr msg "content") (getattr msg "text"))
            end
        end
    end
  else Some PyNone.

Inductive RuntimeError :=
| NotConfigured
| Decommissioned (original : string)
| RequestFailed (msg : string).

(** What [client.chat.completions.create] does. *)
Inductive Completion :=
| CompletionRaises (msg : string)
| CompletionReturns (response : Py).

(** The two settings read from the environment. *)
Record Config := {
  GROQ_API_KEY : option string;
  GROQ_MODEL : option string
}.

(** [client is None]: the client exists when the key is set and not empty. *)
Definition client_is_none (cfg : Config) : bool := negb (truthy (GROQ_API_KEY cfg)).

(** The collaborators of a query: the JSON printer of pandas ([None] when it
    raises), the hosted model, [str] of a response and the message of the
    exception a failing subscript raises. *)
Record Services := {
  to_json : DataFrame -> option string;
  create_completion : string -> string -> Completion;
  str_of_response : Py -> string;
  subscript_error : string
}.

Definition shift_series (k : nat) (s : Series) : Series :=
  match s with
  | Objects v => Objects (fun i => v (k + i)%nat)
  | Floats v => Floats (fun i => v (k + i)%nat)
  | Datetimes v => Datetimes (fun i => v (k + i)%nat)
  end.

(** [df.tail(k)] *)
Definition df_tail (k : nat) (df : DataFrame) : DataFrame :=
  let kept := Nat.min k (nrows df) in
  {| nrows := kept;
     data := map (fun p => (fst p, shift_series (nrows df - kept) (snd p)))
                 (data df) |}.

Definition newline : string := String (ascii_of_nat 10) EmptyString.
Definition dquote : string := String (ascii_of_nat 34) EmptyString.

(** Lines 170-175 *)
Definition df_json_of (sv : Services) (df : DataFrame) : string :=
  match to_json sv df with
  | None => "[]"
  | Some js =>
      if (35000 <? N.of_nat (String.length js))%N then
        match to_json sv (df_tail 200 df) with
        | None => "[]"
        | Some js' => js'
        end
      else js
  end.

(** Lines 177-188 *)
Definition build_prompt (df_json user_question : string) : string :=
  String.concat EmptyString
    [ "You are a Financial Spending Analysis AI."; newline;
      "You are given a user's bank transaction history in JSON format:";
      newline; newline;
      df_json; newline; newline;
      "The user asks: "; dquote; user_question; dquote; newline; newline;
      "Analyze the data carefully and return:"; newline;
      "- A clear answer to the question"; newline;
      "- Exact numbers if required"; newline;
      "- Additional insights & warnings"; newline;
      "- Spending optimization tips"; newline; newline;
      "The answer must be simple and accurate." ].

(** [ask_ai(df, user_question)] (lines 163-222); [inl] is the
    [RuntimeError] it raises. *)
Definition ask_ai (cfg : Config) (sv : Services) (df : DataFrame)
  (user_question : string) : RuntimeError + Py :=
  if client_is_none cfg || negb (truthy (GROQ_MODEL cfg)) then inl NotConfigured
  else
    let prompt := build_prompt (df_json_of sv df) user_question in
    let model := match GROQ_MODEL cfg with Some m => m | None => EmptyString end in
    let failed (msg : string) :=
      if contains "decommission" (lower msg)
         || contains "model_decommissioned" (lower msg)
      then Decommissioned msg else RequestFailed msg in
    match create_completion sv model prompt with
    | CompletionRaises msg => inl (failed msg)
    | CompletionReturns response =>
        match extract_content response with
        | None => inl (failed (subscript_error sv))
        | Some content =>
            if py_truthy content then inr content
            else inr (PyStr (str_of_response sv response))
        end
    end.

(** ** The HTTP operations *)

(** The file [transactions.pkl]. *)
Inductive Store :=
| Absent
| Saved (df : DataFrame)
| Unreadable.

(** What an upload can change: the files, each under the path string it was
    written at, and the stored dataset. *)
Record World := {
  files : list (string * list Byte.byte);
  pickle : Store
}.

Inductive Detail :=
| UnsupportedFileType
| FailedToSave (e : string)
| ProcessingError (m : Message)
| ProcessingFailed (e : Exception)
| KeyNotConfigured
| NoTransactions
| FailedToLoad
| AskFailed (e : RuntimeError).

Inductive Response (A : Type) :=
| JSON (body : A)
| HTTPException (status_code : nat) (detail : Detail).

Arguments JSON {A} body.
Arguments HTTPException {A} status_code detail.

Record UploadFile := {
  filename : option string;
  content : list Byte.byte
}.

Record UploadBody := {
  message : string;
  summary : Summary
}.

Record QueryBody := {
  question : string;
  answer : Py
}.

(** What the machine does to an upload: whether writing the uploaded file
    raises, how the two readers of pandas parse a file, and whether
    [to_pickle] raises (and what the pickle file holds if it does). *)
Record Disk := {
  save_error : option string;
  read_csv : list Byte.byte -> ReadOutcome;
  read_excel : list Byte.byte -> ReadOutcome;
  to_pickle_error : option Store
}.

(** [os.path.join(a, b)] on POSIX, for a non-empty [a] without a final
    separator: an absolute [b] replaces [a]. *)
Definition os_path_join (a b : string) : string :=
  if prefix "/" b then b else a ++ "/" ++ b.

(** Lines 84-90: reading the file at [file_path]. *)
Definition read_table (d : Disk) (fs : list (string * list Byte.byte))
  (file_path : string) : ReadOutcome :=
  match assoc file_path fs with
  | None => ReadFailed "No such file or directory"
  | Some bytes =>
      if endswith (lower file_path) ".csv" then read_csv d bytes
      else read_excel d bytes
  end.

Definition supported_extensions : list string := [".xlsx"; ".xls"; ".csv"].

(** The name under which an upload is saved (line 230). *)
Definition upload_name (file : UploadFile) : string :=
  match filename file with
  | Some f => if truthy_str f then f else "uploaded_file"
  | None => "uploaded_file"
  end.

(** [upload_excel(file)] (lines 228-256) *)
Definition upload_excel (P : Coercions) (d : Disk) (w : World)
  (file : UploadFile) : World * Response UploadBody :=
  let filename := upload_name file in
  if negb (existsb (fun ext => endswith (lower filename) ext)
                   supported_extensions)
  then (w, HTTPException 400 UnsupportedFileType)
  else
    let file_path := os_path_join "uploads" filename in
    match save_error d with
    | Some e => (w, HTTPException 500 (FailedToSave e))
    | None =>
        let w := {| files := set_assoc file_path (content file) (files w);
                    pickle := pickle w |} in
        match process_transactions P (read_table d (files w) file_path) with
        | Raise (ValueError m) => (w, HTTPException 400 (ProcessingError m))
        | Raise e => (w, HTTPException 500 (ProcessingFailed e))
        | Ok (df, summary) =>
            let w :=
              match to_pickle_error d with
              | None => {| files := files w; pickle := Saved df |}
              | Some after => {| files := files w; pickle := after |}
              end in
            (w, JSON {| message := "File uploaded & processed successfully!";
                        summary := summary |})
        end
    end.

(** [query_financial(question)] (lines 259-280) *)
Definition query_financial (cfg : Config) (sv : Services) (w : World)
  (question : string) : Response QueryBody :=
  if client_is_none cfg then HTTPException 503 KeyNotConfigured
  else
    match pickle w with
    | Absent => HTTPException 404 NoTransactions
    | Unreadable => HTTPException 500 FailedToLoad
    | Saved df =>
        match ask_ai cfg sv df question with
        | inl e => HTTPException 502 (AskFailed e)
        | inr answer => JSON {| question := question; answer := answer |}
        end
    end.

(** ** A concrete set of conversions and the tables of the scenarios *)

Definition digit_of (c : ascii) : option N :=
  let n := N_of_ascii c in
  if ((48 <=? n) && (n <=? 57))%N then Some (n - 48)%N else None.

Fixpoint parse_digits (acc : N) (s : string) : option N :=
  match s with
  | EmptyString => Some acc
  | String c s' =>
      match digit_of c with
      | Some d => parse_digits (10 * acc + d)%N s'
      | None => None
      end
  end.

Definition parse_nat (s : string) : option N :=
  match s with
  | EmptyString => None
  | _ => parse_digits 0%N s
  end.

(** Whole numbers in decimal, with an optional minus sign. *)
Definition parse_int (s : string) : option Q :=
  match s with
  | String "-"%char s' =>
      option_map (fun n => inject_Z (- Z.of_N n)) (parse_nat s')
  | _ => option_map (fun n => inject_Z (Z.of_N n)) (parse_nat s)
  end.

(** Dates written YYYY-MM-DD. *)
Definition parse_iso_date (s : string) : option Timestamp :=
  match parse_nat (substring 0 4 s), parse_nat (substring 5 2 s),
        parse_nat (substring 8 2 s) with
  | Some y, Some m, Some d =>
      if (String.length s =? 10)%nat
         && (substring 4 1 s =? "-") && (substring 7 1 s =? "-")
         && ((1 <=? m) && (m <=? 12) && (1 <=? d) && (d <=? 31))%N
      then Some {| ts_year := y; ts_month := m; ts_day := d |}
      else None
  | _, _, _ => None
  end.

Definition repr_int (q : Q) : string :=
  let z := (Qnum q / Zpos (Qden q))%Z in
  (if (z <? 0)%Z then "-" else EmptyString)
  ++ NilEmpty.string_of_uint (N.to_uint (Z.abs_N z)).

Definition repr_iso_date (t : Timestamp) : string :=
  zfill 4 (ts_year t) ++ "-" ++ zfill 2 (ts_month t) ++ "-" ++ zfill 2 (ts_day t).

(** Conversions that read whole numbers and ISO dates and nothing else. *)
Definition plain_coercions : Coercions :=
  {| parse_float := parse_int;
     repr_float := repr_int;
     parse_datetime := parse_iso_date;
     datetime_of_float := fun _ => None;
     float_of_datetime := fun _ => None;
     repr_datetime := repr_iso_date |}.

(** Scenario A: Narration and Amount. *)
Definition scenario_A : DataFrame :=
  {| nrows := 2;
     data := [ ("Narration", objects_of [CStr "SALARY CREDIT"; CStr "ZOMATO ORDER"]);
               ("Amount", objects_of [CNum 50000; CNum (-450)]) ] |}.

(** Scenario B: Debit and Credit only. *)
Definition scenario_B : DataFrame :=
  {| nrows := 2;
     data := [ ("Debit", objects_of [CNum 100; CNum 0]);
               ("Credit", objects_of [CNum 0; CNum 500]) ] |}.

(** Scenario B with a narration column in front. *)
Definition scenario_B_described : DataFrame :=
  {| nrows := 2;
     data := [ ("Narration", objects_of [CStr "ATM"; CStr "REFUND"]);
               ("Debit", objects_of [CNum 100; CNum 0]);
               ("Credit", objects_of [CNum 0; CNum 500]) ] |}.

(** Scenario B with a narration column and an empty Amount column in front. *)
Definition scenario_B_blank_amount : DataFrame :=
  {| nrows := 2;
     data := [ ("Narration", objects_of [CStr "ATM"; CStr "REFUND"]);
               ("Amount", objects_of [CNull; CNull]);
               ("Debit", objects_of [CNum 100; CNum 0]);
               ("Credit", objects_of [CNum 0; CNum 500]) ] |}.

(** A signed Amount column next to Debit and Credit columns. *)
Definition signed_with_debit_credit : DataFrame :=
  {| nrows := 2;
     data := [ ("Narration", objects_of [CStr "ATM"; CStr "REFUND"]);
               ("Amount", objects_of [CNum (-100); CStr "n/a"]);
               ("Debit", objects_of [CNum 100; CNum 0]);
               ("Credit", objects_of [CNum 0; CNum 500]) ] |}.

(** Two dated rows, the second with a date that does not parse. *)
Definition one_bad_date : DataFrame :=
  {| nrows := 2;
     data := [ ("Narration", objects_of [CStr "SALARY"; CStr "CASH"]);
               ("Amount", objects_of [CNum 100; CNum 50]);
               ("Date", objects_of [CStr "2024-01-05"; CStr "soon"]) ] |}.

(** Two rows with valid dates in two months. *)
Definition all_dated : DataFrame :=
  {| nrows := 2;
     data := [ ("Narration", objects_of [CStr "SALARY"; CStr "CASH"]);
               ("Amount", objects_of [CNum 100; CNum (-30)]);
               ("Date", objects_of [CStr "2024-01-05"; CStr "2024-02-11"]) ] |}.

(** A table that brings its own Category column. *)
Definition with_category : DataFrame :=
  {| nrows := 2;
     data := [ ("Description", objects_of [CStr "SALARY"; CStr "ZOMATO"]);
               ("Amount", objects_of [CNum 100; CNum (-20)]);
               ("Category", objects_of [CStr "Bonus"; CNull]) ] |}.

(** Scenario D: no amount-like column. *)
Definition scenario_D : DataFrame :=
  {| nrows := 1;
     data := [ ("Narration", objects_of [CStr "SALARY"]);
               ("When", objects_of [CStr "2024-01-05"]) ] |}.

(** The cells of rows [0 .. n-1] of a column. *)
Definition cells (P : Coercions) (n : nat) (s : Series) : list Cell :=
  map (cell_at P s) (seq 0 n).

(** The column [c] of a normalized table, as a list of cells. *)
Definition column_cells (P : Coercions) (r : Result (DataFrame * Summary))
  (c : string) : option (list Cell) :=
  match r with
  | Ok (df, _) =>
      match df_getitem df c with
      | Ok s => Some (cells P (nrows df) s)
      | Raise _ => None
      end
  | Raise _ => None
  end.

(** A grouping key is present. *)
Definition has_key (o : option string) : bool :=
  match o with Some _ => true | None => false end.

(** The names [_detect_columns] can take for a description, an amount and a
    date column. *)
Definition desc_like (c : string) : bool :=
  in_list (lower c) desc_vocabulary
  || (contains "desc" (lower c) || contains "narr" (lower c)
      || contains "particular" (lower c)).

Definition amt_like (c : string) : bool :=
  (contains "amount" (lower c) || in_list (lower c) amt_vocabulary)
  || (contains "amt" (lower c) || contains "debit" (lower c)
      || contains "credit" (lower c) || contains "balance" (lower c)).

Definition date_like (c : string) : bool :=
  contains "date" (lower c) || contains "txn date" (lower c)
  || contains "transaction date" (lower c).

(** A string that is empty or starts with a character that is not white
    space. *)
Definition starts_clean (s : string) : Prop :=
  match s with
  | EmptyString => True
  | String c _ => is_space c = false
  end.

(** Two frames with the same rows that agree on every column whose name is
    not in [names]. *)
Definition same_except (names : list string) (df df' : DataFrame) : Prop :=
  nrows df' = nrows df
  /\ forall c, ~ In c names -> df_getitem df' c = df_getitem df c.

(** The amounts the resolver owes for a table [df] whose primary amount
    column is [primary_col]: credit minus debit, missing cells counting as
    0, when a debit and a credit column both exist and the primary column
    coerces to a missing value on every row; the coerced primary amounts,
    missing ones counting as 0, otherwise. *)
Definition resolved_amounts (P : Coercions) (df : DataFrame)
  (primary_col : Series) (amount : nat -> option Q) : Prop :=
  let primary := to_numeric P primary_col in
  (exists dc cc debit credit,
      debit_column df = Some dc /\ credit_column df = Some cc
      /\ df_getitem df dc = Ok debit /\ df_getitem df cc = Ok credit
      /\ isna_all (nrows df) primary = true
      /\ forall i, amount i
                   = Some (nan_to_zero (to_numeric P credit i)
                           - nan_to_zero (to_numeric P debit i))%Q)
  \/ ((debit_column df = None \/ credit_column df = None
       \/ isna_all (nrows df) primary = false)
      /\ forall i, amount i = Some (nan_to_zero (primary i))).


(** The frame and the summary of a table that normalizes (the table itself
    and an empty summary stand in when it does not). *)
Definition normalized (P : Coercions) (df : DataFrame) : DataFrame * Summary :=
  match process_transactions P (ReadFrame df) with
  | Ok r => r
  | Raise _ =>
      (df, {| total_income := 0; total_expense := 0; net_balance := 0;
              monthly_summary := []; category_summary := []; rows := 0 |})
  end.

(** A table with a header and no row. *)
Definition header_only : DataFrame :=
  {| nrows := 0;
     data := [ ("Narration", objects_of []); ("Amount", objects_of []) ] |}.

(** The keys of a summary dictionary come in strictly increasing order (so
    no key comes twice). *)
Definition key_lt (p q : string * Q) : Prop :=
  String.compare (fst p) (fst q) = Lt.

Definition keys_increasing (m : list (string * Q)) : Prop :=
  StronglySorted key_lt m.

(** The summary of a normalized table. *)
Definition summary_of (r : Result (DataFrame * Summary)) : option Summary :=
  match r with
  | Ok (_, s) => Some s
  | Raise _ => None
  end.

(** The decision list as a function: the label of the first rule one of
    whose keywords occurs in the lower-cased text [desc]. *)
Fixpoint first_label (rules : list (list string * string)) (desc : string)
  : string :=
  match rules with
  | [] => "Others"
  | (keywords, label) :: rest =>
      if existsb (fun k => contains k desc) keywords then label
      else first_label rest desc
  end.

(** ** The categorizer as the specification words it *)

(** The ordered rules: keywords and the label they give. *)
Definition category_rules : list (list string * string) :=
  [ (["salary"], "Income");
    (["fuel"; "diesel"], "Fuel");
    (["zomato"; "swiggy"; "restaurant"], "Food");
    (["amazon"; "flipkart"], "Shopping");
    (["mutual fund"; "sip"], "Investments");
    (["upi"; "transfer"; "google pay"; "gpay"], "Transfers") ].

(** [k] occurs in [s] when case is ignored: some stretch of [s] is [k] once
    lower-cased. *)
Definition occurs_ignoring_case (k s : string) : Prop :=
  exists pre mid post, s = pre ++ mid ++ post /\ lower mid = k.

Definition rule_applies (keywords : list string) (s : string) : Prop :=
  exists k, In k keywords /\ occurs_ignoring_case k s.

(** Top to bottom, first match wins, [Others] when no rule applies. *)
Inductive first_match : list (list string * string) -> string -> string -> Prop :=
| fm_default s : first_match [] s "Others"
| fm_hit keywords label rest s :
    rule_applies keywords s ->
    first_match ((keywords, label) :: rest) s label
| fm_skip keywords label rest s l :
    ~ rule_applies keywords s ->
    first_match rest s l ->
    first_match ((keywords, label) :: rest) s l.

(** ** Where a path points *)





(** Worlds, disks and uploads of the examples. *)
Definition empty_world : World := {| files := []; pickle := Absent |}.

Definition sample_bytes : list Byte.byte := [Byte.x41; Byte.x0a].

(** A machine on which every CSV parses to the table of scenario A and
    nothing fails. *)
Definition sound_disk : Disk :=
  {| save_error := None;
     read_csv := fun _ => ReadFrame scenario_A;
     read_excel := fun _ => ReadFailed "not a workbook";
     to_pickle_error := None |}.

(** The same machine, except that writing the pickle file raises and leaves
    no such file. *)
Definition full_disk : Disk :=
  {| save_error := None;
     read_csv := fun _ => ReadFrame scenario_A;
     read_excel := fun _ => ReadFailed "not a workbook";
     to_pickle_error := Some Absent |}.

Definition statement_csv : UploadFile :=
  {| filename := Some "statement.csv"; content := sample_bytes |}.

Definition unnamed_upload : UploadFile :=
  {| filename := None; content := sample_bytes |}.

Definition no_key : Config :=
  {| GROQ_API_KEY := None; GROQ_MODEL := Some "llama" |}.

Definition full_config : Config :=
  {| GROQ_API_KEY := Some "gsk"; GROQ_MODEL := Some "llama" |}.

(** A model that answers every prompt with the same text. *)
Definition echo_services : Services :=
  {| to_json := fun _ => Some "[]";
     create_completion := fun _ _ =>
       CompletionReturns
         (PyObject [("choices",
            PyList [PyObject [("message", PyObject [("content", PyStr "42")])]])]);
     str_of_response := fun _ => "response";
     subscript_error := "not subscriptable" |}.

(** ** Further definitions for the properties of the code *)

(** The three detected names, lower-cased. *)
Definition lowered (r : option string * option string * option string)
  : option string * option string * option string :=
  (option_map lower (fst (fst r)), option_map lower (snd (fst r)),
   option_map lower (snd r)).

(** The first element of [l] that satisfies [p], else the first that
    satisfies [q]. *)
Definition first_of (p q : string -> bool) (l : list string) : option string :=
  match hd_error (filter p l) with
  | Some x => Some x
  | None => hd_error (filter q l)
  end.

(** Scenario A under other spellings of its column names. *)
Definition scenario_A_respelled : DataFrame :=
  {| nrows := 2;
     data := [ ("  NARRATION ", objects_of [CStr "SALARY CREDIT"; CStr "ZOMATO ORDER"]);
               ("amount  ", objects_of [CNum 50000; CNum (-450)]) ] |}.

(** The labels the categorizer can give. *)
Definition category_labels : list string :=
  ["Income"; "Fuel"; "Food"; "Shopping"; "Investments"; "Transfers"; "Others"].

(** The five columns the normalization assigns. *)
Definition canonical_columns : list string :=
  ["Description"; "Amount"; "Date"; "Month"; "Category"].

(** Some trimmed column name of [df] satisfies [p]. *)
Definition some_column (p : string -> bool) (df : DataFrame) : Prop :=
  exists c, In c (map strip (columns df)) /\ p c = true.



(** A table with no row and no column. *)
Definition blank_frame : DataFrame := {| nrows := 0; data := [] |}.


(** [s[-n:]] *)
Definition last_chars (n : nat) (s : string) : string :=
  substring (String.length s - n) n s.

(** [_mask(s)] of [_reload_env_and_log] (lines 412-415) *)
Definition _mask (s : option string) : option string :=
  match s with
  | None => None
  | Some x =>
      if negb (truthy_str x) then None
      else Some (if (8 <? String.length x)%nat
                 then substring 0 4 x ++ "..." ++ last_chars 4 x
                 else "****")
  end.

(** The configured client is there and the model identifier is set. *)
Definition configured (cfg : Config) : Prop :=
  client_is_none cfg = false /\ truthy (GROQ_MODEL cfg) = true.

(** A model that refuses every prompt because it was retired. *)
Definition retired_services : Services :=
  {| to_json := fun _ => Some "[]";
     create_completion := fun _ _ =>
       CompletionRaises "The model has been DECOMMISSIONED";
     str_of_response := fun _ => "response";
     subscript_error := "not subscriptable" |}.

(** ** The sums as the program computes them: binary64 *)

(** pandas holds the Amount column as float64 and adds it in binary64.  The
    definitions above ([sum_where], [group_sum], [Summary]) are the exact
    sums of the same rows; the ones below are lines 149-151 in binary64
    arithmetic, to tell what of the exact identities the program keeps. *)










(** ** Python strings: facts *)

Lemma prefix_app (k s : string) :
  prefix k s = true <-> exists post, s = k ++ post.
Proof.
  revert s; induction k as [|c k IH]; intros s; simpl.
  - destruct s; split; intros; eauto.
  - destruct s as [|c' s]; simpl.
    + split; [discriminate | intros [post H]; discriminate].
    + destruct (ascii_dec c c') as [->|Hne].
      * rewrite IH. split; intros [post H]; exists post.
        -- now rewrite H.
        -- now inversion H.
      * split; [discriminate | intros [post H]; congruence].
Qed.

(** [contains k s] holds exactly when [k] is a stretch of [s]. *)
Lemma contains_app (k s : string) :
  contains k s = true <-> exists pre post, s = pre ++ k ++ post.
Proof.
  induction s as [|c s IH].
  - simpl. rewrite orb_false_r.
    change (match k with EmptyString => true | String _ _ => false end)
      with (prefix k EmptyString).
    rewrite prefix_app. split.
    + intros [post H]. exists EmptyString, post. exact H.
    + intros [pre [post H]]. destruct pre; simpl in H.
      * now exists post.
      * discriminate.
  - cbn [contains]. rewrite orb_true_iff, IH, prefix_app. split.
    + intros [[post H] | [pre [post H]]].
      * exists EmptyString, post. exact H.
      * exists (String c pre), post. simpl. now rewrite H.
    + intros [pre [post H]]. destruct pre as [|c' pre]; simpl in H.
      * left. now exists post.
      * right. inversion H. now exists pre, post.
Qed.

Lemma lower_app (a b : string) : lower (a ++ b) = lower a ++ lower b.
Proof. induction a as [|c a IH]; simpl; [reflexivity | now rewrite IH]. Qed.

Lemma lower_split (s x y : string) :
  lower s = x ++ y -> exists a b, s = a ++ b /\ lower a = x /\ lower b = y.
Proof.
  revert s; induction x as [|c x IH]; intros s H; simpl in H.
  - exists EmptyString, s. auto.
  - destruct s as [|c' s]; simpl in H; [discriminate|].
    inversion H as [[Hc Hs]]. destruct (IH _ Hs) as [a [b [-> [<- <-]]]].
    exists (String c' a), b. simpl. auto.
Qed.

(** Looking for a keyword in the lower-cased text is looking for it in the
    text with case ignored. *)
Lemma contains_lower (k s : string) :
  contains k (lower s) = true <-> occurs_ignoring_case k s.
Proof.
  rewrite contains_app. unfold occurs_ignoring_case. split.
  - intros [pre [post H]].
    destruct (lower_split _ _ _ H) as [a [b [-> [Ha Hb]]]].
    destruct (lower_split _ _ _ Hb) as [m [p [-> [Hm Hp]]]].
    now exists a, m, p.
  - intros [pre [mid [post [-> Hm]]]].
    exists (lower pre), (lower post). now rewrite !lower_app, Hm.
Qed.

Lemma rule_applies_existsb (keywords : list string) (s : string) :
  existsb (fun k => contains k (lower s)) keywords = true
  <-> rule_applies keywords s.
Proof.
  unfold rule_applies. rewrite existsb_exists.
  split; intros [k [Hin Hk]]; exists k; split; auto; now apply contains_lower.
Qed.

(** ** The categorizer *)

Lemma first_label_sound rules s :
  first_match rules s (first_label rules (lower s)).
Proof.
  induction rules as [|[keywords label] rest IH]; simpl.
  - constructor.
  - destruct (existsb (fun k => contains k (lower s)) keywords) eqn:E.
    + apply fm_hit. now apply rule_applies_existsb.
    + apply fm_skip; [|exact IH].
      rewrite <- rule_applies_existsb, E. discriminate.
Qed.

Lemma first_match_unique rules s l1 l2 :
  first_match rules s l1 -> first_match rules s l2 -> l1 = l2.
Proof.
  intros H1; revert l2; induction H1; intros l2 H2; inversion H2; subst;
    auto; contradiction.
Qed.

Lemma categorize_first_label (P : Coercions) (s : string) :
  categorize P (CStr s) = first_label category_rules (lower s).
Proof.
  unfold categorize, category_rules, first_label, existsb, str_of_cell.
  rewrite !orb_false_r.
  repeat match goal with
         | |- context [contains ?k (lower s)] =>
             destruct (contains k (lower s)); simpl; try reflexivity
         end.
Qed.

(** C5. The categorizer is the ordered decision list of the specification:
    for every description text the label is the one of the first rule, top
    to bottom, one of whose keywords occurs in the text with case ignored,
    and [Others] when no rule applies; it is the only such label.  A missing
    description gives [Others].  On the two rows of scenario A the
    categories are Income and Food and the net balance is 49550. *)
Theorem categorize_decision_list (P : Coercions) :
  (forall s l, first_match category_rules s l <-> l = categorize P (CStr s))
  /\ categorize P CNull = "Others"
  /\ column_cells P (process_transactions P (ReadFrame scenario_A)) "Category"
     = Some [CStr "Income"; CStr "Food"]
  /\ option_map net_balance
       (summary_of (process_transactions P (ReadFrame scenario_A)))
     = Some 49550.
Proof.
  split; [|split; [reflexivity | split; reflexivity]].
  intros s l. rewrite categorize_first_label. split.
  - intros H. eapply first_match_unique; [exact H | apply first_label_sound].
  - intros ->. apply first_label_sound.
Qed.

(** ** Sums and groupings *)







Lemma sum_values_bucket_add (k : string) (v : Q) (m : list (string * Q)) :
  (sum_values (bucket_add k v m) == sum_values m + v)%Q.
Proof.
  induction m as [|[k' v'] m IH]; simpl.
  - ring.
  - destruct (String.compare k k'); simpl; rewrite ?IH; ring.
Qed.

Lemma compare_lt_trans (a b c : string) :
  String.compare a b = Lt -> String.compare b c = Lt -> String.compare a c = Lt.
Proof.
  intros H1 H2. apply String_as_OT.cmp_lt.
  apply String_as_OT.cmp_lt in H1, H2.
  eapply String_as_OT.lt_trans; eassumption.
Qed.

Lemma bucket_add_above (k0 k : string) (v : Q) (m : list (string * Q)) :
  String.compare k0 k = Lt ->
  Forall (key_lt (k0, 0%Q)) m ->
  Forall (key_lt (k0, 0%Q)) (bucket_add k v m).
Proof.
  intros Hk. induction m as [|[k' v'] m IH]; simpl; intros H.
  - constructor; [exact Hk | constructor].
  - inversion H as [|? ? Hhd Htl]; subst.
    destruct (String.compare k k'); constructor; auto.
Qed.

Lemma bucket_add_increasing (k : string) (v : Q) (m : list (string * Q)) :
  keys_increasing m -> keys_increasing (bucket_add k v m).
Proof.
  unfold keys_increasing.
  induction m as [|[k' v'] m IH]; simpl; intros H.
  - constructor; constructor.
  - inversion H as [|? ? Hs Hf]; subst.
    destruct (String.compare k k') eqn:E.
    + constructor; [exact Hs | exact Hf].
    + constructor; [exact H|]. constructor; [exact E|].
      eapply Forall_impl; [|exact Hf].
      intros p Hp. unfold key_lt in *. simpl in *.
      eapply compare_lt_trans; eassumption.
    + constructor; [now apply IH|].
      apply (bucket_add_above k' k v m); [|exact Hf].
      rewrite String.compare_antisym, E. reflexivity.
Qed.

(** A grouping is a dictionary: its keys are strictly increasing. *)
Lemma group_sum_increasing (n : nat) (keys : nat -> option string)
  (v : nat -> option Q) :
  keys_increasing (group_sum n keys v).
Proof.
  unfold group_sum.
  assert (G : forall l m, keys_increasing m ->
    keys_increasing
      (fold_left (fun m i =>
                    match keys i with
                    | Some k => bucket_add k (nan_to_zero (v i)) m
                    | None => m
                    end) l m)).
  { induction l as [|i l IH]; intros m Hm; simpl; [exact Hm|].
    apply IH. destruct (keys i); [now apply bucket_add_increasing | exact Hm]. }
  apply G. constructor.
Qed.

Lemma group_sum_fold (keys : nat -> option string) (v : nat -> option Q)
  (l : list nat) (m : list (string * Q)) (acc : Q) :
  (sum_values m == acc)%Q ->
  (sum_values
     (fold_left (fun m i =>
                   match keys i with
                   | Some k => bucket_add k (nan_to_zero (v i)) m
                   | None => m
                   end) l m)
   == fold_left (fun acc i => if has_key (keys i)
                              then acc + nan_to_zero (v i) else acc) l acc)%Q.
Proof.
  revert m acc; induction l as [|i l IH]; intros m acc H; simpl; [exact H|].
  apply IH. destruct (keys i); simpl; [|exact H].
  rewrite sum_values_bucket_add, H. reflexivity.
Qed.

(** The values of a grouping add up to the sum over the rows that have a
    key. *)
Lemma sum_values_group_sum (n : nat) (keys : nat -> option string)
  (v : nat -> option Q) :
  (sum_values (group_sum n keys v)
   == sum_where (fun i => has_key (keys i)) n v)%Q.
Proof. apply group_sum_fold. reflexivity. Qed.


(** ** Frames: selecting and assigning columns *)

Lemma assoc_set_same {A : Type} (c : string) (a : A) (l : list (string * A)) :
  assoc c (set_assoc c a l) = Some a.
Proof.
  induction l as [|[c' a'] l IH]; simpl.
  - now rewrite String.eqb_refl.
  - destruct (c =? c')%string eqn:E; simpl; rewrite E; auto.
Qed.

Lemma assoc_set_other {A : Type} (c c' : string) (a : A) (l : list (string * A)) :
  c <> c' -> assoc c' (set_assoc c a l) = assoc c' l.
Proof.
  intros Hne. induction l as [|[c0 a0] l IH]; simpl.
  - apply String.eqb_neq in Hne. rewrite String.eqb_sym in Hne. now rewrite Hne.
  - destruct (c =? c0)%string eqn:E; simpl.
    + apply String.eqb_eq in E. subst c0.
      destruct (c' =? c)%string eqn:E'; auto.
      apply String.eqb_eq in E'. congruence.
    + now rewrite IH.
Qed.

Lemma getitem_setitem_same (df : DataFrame) (c : string) (s : Series) :
  df_getitem (df_setitem df c s) c = Ok s.
Proof. unfold df_getitem, df_setitem; simpl. now rewrite assoc_set_same. Qed.

Lemma getitem_setitem_other (df : DataFrame) (c c' : string) (s : Series) :
  c <> c' -> df_getitem (df_setitem df c s) c' = df_getitem df c'.
Proof.
  intros H. unfold df_getitem, df_setitem; simpl. now rewrite assoc_set_other.
Qed.

Lemma has_column_assoc (df : DataFrame) (c : string) :
  has_column df c = match assoc c (data df) with Some _ => true | None => false end.
Proof.
  unfold has_column, columns. induction (data df) as [|[c' s] l IH]; simpl; auto.
  destruct (c =? c')%string; auto.
Qed.

Lemma has_column_getitem (df : DataFrame) (c : string) :
  has_column df c = true -> exists s, df_getitem df c = Ok s.
Proof.
  rewrite has_column_assoc. unfold df_getitem.
  destruct (assoc c (data df)); [eauto | discriminate].
Qed.

Lemma getitem_has_column (df : DataFrame) (c : string) (s : Series) :
  df_getitem df c = Ok s -> has_column df c = true.
Proof.
  rewrite has_column_assoc. unfold df_getitem.
  destruct (assoc c (data df)); [reflexivity | discriminate].
Qed.

Lemma has_column_setitem (df : DataFrame) (c c' : string) (s : Series) :
  has_column (df_setitem df c s) c' = ((c' =? c)%string || has_column df c').
Proof.
  rewrite !has_column_assoc. destruct (c' =? c)%string eqn:E; simpl.
  - apply String.eqb_eq in E. subst c'. unfold df_setitem; simpl.
    now rewrite assoc_set_same.
  - apply String.eqb_neq in E. unfold df_setitem; simpl.
    rewrite assoc_set_other; auto.
Qed.

Lemma has_column_In (df : DataFrame) (c : string) :
  has_column df c = true <-> In c (columns df).
Proof.
  unfold has_column. rewrite existsb_exists. split.
  - intros [x [Hin Hx]]. apply String.eqb_eq in Hx. now subst.
  - intros H. exists c. split; auto. apply String.eqb_refl.
Qed.

Lemma bind_Ok {A B : Type} (r : Result A) (k : A -> Result B) (b : B) :
  bind r k = Ok b -> exists a, r = Ok a /\ k a = Ok b.
Proof. destruct r; simpl; [eauto | discriminate]. Qed.

(** ** Trimming is idempotent *)

Lemma lstrip_clean (s : string) : starts_clean (lstrip s).
Proof.
  induction s as [|c s IH]; simpl; [exact I|].
  destruct (is_space c) eqn:E; [exact IH | exact E].
Qed.

Lemma lstrip_of_clean (s : string) : starts_clean s -> lstrip s = s.
Proof. destruct s as [|c s]; simpl; [reflexivity | now intros ->]. Qed.

Lemma rstrip_clean (s : string) : starts_clean s -> starts_clean (rstrip s).
Proof.
  destruct s as [|c s]; simpl; [exact id|]. intros H.
  destruct (rstrip s); [rewrite H|]; exact H.
Qed.

Lemma rstrip_idem (s : string) : rstrip (rstrip s) = rstrip s.
Proof.
  induction s as [|c s IH]; simpl; [reflexivity|].
  destruct (rstrip s) as [|c' r] eqn:E.
  - destruct (is_space c) eqn:Ec; simpl; [reflexivity | now rewrite Ec].
  - change (rstrip (String c (String c' r))) with
      (match rstrip (String c' r) with
       | EmptyString => if is_space c then EmptyString else String c EmptyString
       | r0 => String c r0
       end).
    now rewrite IH.
Qed.

Lemma strip_idem (s : string) : strip (strip s) = strip s.
Proof.
  unfold strip.
  rewrite (lstrip_of_clean (rstrip (lstrip s))).
  - apply rstrip_idem.
  - apply rstrip_clean, lstrip_clean.
Qed.

Lemma columns_strip_columns (df : DataFrame) :
  columns (strip_columns df) = map strip (columns df).
Proof. unfold columns, strip_columns; simpl. now rewrite !map_map. Qed.

Lemma strip_stripped_columns (df : DataFrame) :
  map strip (columns (strip_columns df)) = columns (strip_columns df).
Proof.
  rewrite columns_strip_columns, map_map.
  apply map_ext. intros c. apply strip_idem.
Qed.

(** ** What the column detector returns *)

Lemma hd_filter {A : Type} (p : A -> bool) (l : list A) (x : A) :
  hd_error (filter p l) = Some x -> In x l /\ p x = true.
Proof.
  intros H. apply filter_In. destruct (filter p l); simpl in H; [discriminate|].
  inversion H. now left.
Qed.

Lemma hd_filter_none {A : Type} (p : A -> bool) (l : list A) :
  hd_error (filter p l) = None -> forall x, In x l -> p x = false.
Proof.
  intros H x Hin. destruct (p x) eqn:E; auto.
  assert (Hf : In x (filter p l)) by (apply filter_In; auto).
  destruct (filter p l); [contradiction | discriminate].
Qed.

Lemma find_index_nth (p : string -> bool) (cols : list string) (i : nat) (x : string) :
  find_index p (map lower cols) = Some i -> nth_error cols i = Some x ->
  In x cols /\ p (lower x) = true.
Proof.
  revert i; induction cols as [|c cols IH]; intros i Hf Hn; simpl in Hf.
  - discriminate.
  - destruct (p (lower c)) eqn:E.
    + inversion Hf; subst i. simpl in Hn. inversion Hn; subst.
      split; [now left | assumption].
    + destruct (find_index p (map lower cols)) as [j|]; [|discriminate].
      inversion Hf; subst i. simpl in Hn.
      destruct (IH j eq_refl Hn). split; [now right | assumption].
Qed.

Lemma first_by_lower_hd (p : string -> bool) (cols : list string) (x : string) :
  hd_error (first_by_lower p cols (map lower cols)) = Some x ->
  In x cols /\ p (lower x) = true.
Proof.
  unfold first_by_lower.
  destruct (find_index p (map lower cols)) as [i|] eqn:Ef; [|discriminate].
  destruct (nth_error cols i) as [c|] eqn:En; [|discriminate].
  simpl. intros H; inversion H; subst. eapply find_index_nth; eauto.
Qed.

Lemma first_or_fallback (p q : string -> bool) (cols : list string) (x : string) :
  hd_error match filter p cols with
           | [] => first_by_lower q cols (map lower cols)
           | _ => filter p cols
           end = Some x ->
  In x cols /\ (p x || q (lower x)) = true.
Proof.
  destruct (filter p cols) as [|y l] eqn:E.
  - intros H. apply first_by_lower_hd in H as [Hin Hq].
    split; auto. rewrite Hq. apply orb_true_r.
  - rewrite <- E. intros H. apply hd_filter in H as [Hin Hp].
    split; auto. now rewrite Hp.
Qed.

(** The detected description column is a trimmed column name that looks
    like a description; likewise for the amount and the date. *)
Lemma detect_desc (df : DataFrame) (d : string) :
  fst (fst (_detect_columns df)) = Some d ->
  In d (map strip (columns df)) /\ desc_like d = true.
Proof. unfold _detect_columns; simpl. apply first_or_fallback. Qed.

Lemma detect_amt (df : DataFrame) (a : string) :
  snd (fst (_detect_columns df)) = Some a ->
  In a (map strip (columns df)) /\ amt_like a = true.
Proof. unfold _detect_columns; simpl. apply first_or_fallback. Qed.

Lemma detect_date (df : DataFrame) (c : string) :
  snd (_detect_columns df) = Some c ->
  In c (map strip (columns df)) /\ date_like c = true.
Proof. unfold _detect_columns; simpl. apply hd_filter. Qed.

Lemma detect_no_date (df : DataFrame) :
  snd (_detect_columns df) = None ->
  forall c, In c (map strip (columns df)) -> date_like c = false.
Proof. unfold _detect_columns; simpl. apply hd_filter_none. Qed.

Lemma find_last_app {A : Type} (p : A -> bool) (l : list A) (x : A) :
  find_last p (l ++ [x]) = if p x then Some x else find_last p l.
Proof. unfold find_last. now rewrite fold_left_app. Qed.

Lemma find_last_Some {A : Type} (p : A -> bool) (l : list A) (x : A) :
  find_last p l = Some x -> In x l /\ p x = true.
Proof.
  induction l as [|y l IH] using rev_ind; [discriminate|].
  rewrite find_last_app. destruct (p y) eqn:E.
  - intros H; inversion H; subst. split; auto. apply in_or_app. right. now left.
  - intros H. destruct (IH H). split; auto. apply in_or_app. now left.
Qed.

Lemma find_last_None {A : Type} (p : A -> bool) (l : list A) :
  find_last p l = None -> forall x, In x l -> p x = false.
Proof.
  induction l as [|y l IH] using rev_ind; [contradiction|].
  rewrite find_last_app. destruct (p y) eqn:E; [discriminate|].
  intros H x Hin. apply in_app_or in Hin as [Hin | [<- | []]]; auto.
Qed.

(** ** The phases of the normalization *)

Lemma same_except_refl (names : list string) (df : DataFrame) :
  same_except names df df.
Proof. split; auto. Qed.

Lemma same_except_setitem (df : DataFrame) (c : string) (s : Series) :
  same_except [c] df (df_setitem df c s).
Proof.
  split; [reflexivity|]. intros c' Hc'. apply getitem_setitem_other.
  intros ->. apply Hc'. now left.
Qed.

Lemma same_except_trans (l1 l2 : list string) (df df' df'' : DataFrame) :
  same_except l1 df df' -> same_except l2 df' df'' ->
  same_except (l1 ++ l2) df df''.
Proof.
  intros [Hn1 H1] [Hn2 H2]. split; [congruence|].
  intros c Hc. rewrite H2, H1; auto; intros Hin; apply Hc, in_or_app; auto.
Qed.

Lemma same_except_has_column (names : list string) (df df' : DataFrame) (c : string) :
  same_except names df df' -> ~ In c names -> has_column df' c = has_column df c.
Proof.
  intros [_ H] Hc. specialize (H c Hc). rewrite !has_column_assoc.
  unfold df_getitem in H.
  destruct (assoc c (data df')), (assoc c (data df)); congruence.
Qed.

Lemma columns_setitem (df : DataFrame) (c : string) (s : Series) :
  columns (df_setitem df c s)
  = if has_column df c then columns df else (columns df ++ [c])%list.
Proof.
  unfold columns, has_column, columns, df_setitem; simpl.
  induction (data df) as [|[c' s'] l IH]; simpl; [reflexivity|].
  destruct (c =? c')%string eqn:E; simpl; [reflexivity|].
  rewrite IH. now destruct (existsb (String.eqb c) (map fst l)).
Qed.

Lemma find_last_setitem (p : string -> bool) (df : DataFrame) (c : string)
  (s : Series) :
  p c = false ->
  find_last p (columns (df_setitem df c s)) = find_last p (columns df).
Proof.
  intros Hp. rewrite columns_setitem. destruct (has_column df c); auto.
  now rewrite find_last_app, Hp.
Qed.

Lemma In_columns_getitem (df : DataFrame) (c : string) :
  In c (columns df) -> exists s, df_getitem df c = Ok s.
Proof. intros H. now apply has_column_getitem, has_column_In. Qed.

Section Phases.

Variable P : Coercions.

Lemma assign_description_Ok (df : DataFrame) (d : string) (s : Series) :
  df_getitem df d = Ok s ->
  assign_description P df d
  = Ok (df_setitem df "Description"
          (Objects (fun i => CStr (fillna_astype_str P s i)))).
Proof. unfold assign_description. now intros ->. Qed.

Lemma assign_amount_Ok (df : DataFrame) (a : string) (s : Series) :
  df_getitem df a = Ok s ->
  assign_amount P df a = df_setitem df "Amount" (Floats (to_numeric P s)).
Proof. unfold assign_amount. now intros ->. Qed.

(** The debit and credit columns are looked up among the columns of the
    uploaded table: the two columns the normalization adds do not count. *)
Lemma debit_column_setitem (df : DataFrame) (c : string) (s : Series) :
  ("debit" =? lower c)%string = false ->
  debit_column (df_setitem df c s) = debit_column df.
Proof.
  intros H. unfold debit_column.
  now apply (find_last_setitem (fun c => "debit" =? lower c)%string).
Qed.

Lemma credit_column_setitem (df : DataFrame) (c : string) (s : Series) :
  ("credit" =? lower c)%string = false ->
  credit_column (df_setitem df c s) = credit_column df.
Proof.
  intros H. unfold credit_column.
  now apply (find_last_setitem (fun c => "credit" =? lower c)%string).
Qed.

Lemma named_column_truthy (name c : string) :
  truthy_str name = true -> (name =? lower c)%string = true -> truthy_str c = true.
Proof.
  intros Hn H. apply String.eqb_eq in H. subst name.
  destruct c; [discriminate | reflexivity].
Qed.

(** The fallback, case by case, on a frame whose Amount column holds the
    primary amounts. *)
Lemma fallback_active (df : DataFrame) (primary : nat -> option Q)
  (dc cc : string) (debit credit : Series) :
  df_getitem df "Amount" = Ok (Floats primary) ->
  debit_column df = Some dc -> credit_column df = Some cc ->
  isna_all (nrows df) primary = true ->
  df_getitem df dc = Ok debit -> df_getitem df cc = Ok credit ->
  debit_credit_fallback P df
  = Ok (df_setitem df "Amount"
          (Floats (fun i => Some (nan_to_zero (fillna0 (to_numeric P credit) i)
                                  - nan_to_zero (fillna0 (to_numeric P debit) i))%Q))).
Proof.
  intros Ha Hd Hc Hna Hgd Hgc. unfold debit_credit_fallback.
  rewrite Hd, Hc.
  apply find_last_Some in Hd as [_ Hd]. apply find_last_Some in Hc as [_ Hc].
  rewrite (named_column_truthy "debit" dc eq_refl Hd).
  rewrite (named_column_truthy "credit" cc eq_refl Hc).
  simpl. rewrite Ha. simpl. rewrite Hna, Hgc. simpl. now rewrite Hgd.
Qed.

Lemma fallback_inactive (df : DataFrame) (primary : nat -> option Q) :
  df_getitem df "Amount" = Ok (Floats primary) ->
  debit_column df = None \/ credit_column df = None
  \/ isna_all (nrows df) primary = false ->
  debit_credit_fallback P df = Ok df.
Proof.
  intros Ha H. unfold debit_credit_fallback.
  destruct (debit_column df) as [dc|]; [|reflexivity].
  destruct (credit_column df) as [cc|]; [|reflexivity].
  destruct H as [H | [H | H]]; try discriminate.
  destruct (truthy_str dc && truthy_str cc); [|reflexivity].
  rewrite Ha. simpl. now rewrite H.
Qed.

Lemma final_coercion_Ok (df : DataFrame) (amount : nat -> option Q) :
  df_getitem df "Amount" = Ok (Floats amount) ->
  final_coercion P df
  = Ok (df_setitem df "Amount" (Floats (fillna0 amount))).
Proof. unfold final_coercion. now intros ->. Qed.

(** The Date phase never fails, touches no other column, and a column named
    Date is a datetime column after it. *)
Lemma assign_date_total (df : DataFrame) (date_col : option string) :
  exists df', assign_date P df date_col = Ok df'
              /\ same_except ["Date"] df df'
              /\ (has_column df' "Date" = true ->
                  exists v, df_getitem df' "Date" = Ok (Datetimes v)).
Proof.
  assert (Hset : forall c, has_column df c = true ->
    exists df', (s <- df_getitem df c ;;
                 Ok (df_setitem df "Date" (Datetimes (to_datetime P s)))) = Ok df'
                /\ same_except ["Date"] df df'
                /\ (has_column df' "Date" = true ->
                    exists v, df_getitem df' "Date" = Ok (Datetimes v))).
  { intros c Hc. destruct (has_column_getitem _ _ Hc) as [s Hs].
    rewrite Hs. simpl. eexists; split; [reflexivity|].
    split; [apply same_except_setitem|].
    intros _. eexists. apply getitem_setitem_same. }
  assert (Hfind :
    exists df', match find (has_column df) date_fallback_names with
                | Some cand =>
                    s <- df_getitem df cand ;;
                    Ok (df_setitem df "Date" (Datetimes (to_datetime P s)))
                | None => Ok df
                end = Ok df'
                /\ same_except ["Date"] df df'
                /\ (has_column df' "Date" = true ->
                    exists v, df_getitem df' "Date" = Ok (Datetimes v))).
  { destruct (find (has_column df) date_fallback_names) as [cand|] eqn:Ef.
    - apply find_some in Ef as [_ Hc]. now apply Hset.
    - exists df. split; [reflexivity|]. split; [apply same_except_refl|].
      intros Hd. exfalso.
      pose proof (find_none _ _ Ef "Date" (or_introl eq_refl)) as Hn.
      congruence. }
  unfold assign_date. destruct date_col as [c|]; [|exact Hfind].
  destruct (truthy_str c && has_column df c) eqn:E; [|exact Hfind].
  apply andb_true_iff in E as [_ Hc]. now apply Hset.
Qed.

Lemma sum_where_none (n : nat) (v : nat -> option Q) :
  sum_where (fun _ => false) n v = 0%Q.
Proof.
  unfold sum_where. induction (seq 0 n) as [|i l IH]; simpl; auto.
Qed.

(** The Month phase, on a frame whose Amount column is numeric: it touches
    no other column, and the monthly sums add up to the amounts of the rows
    that have a month. *)
Lemma assign_month_total (df : DataFrame) (v : nat -> option Q) :
  df_getitem df "Amount" = Ok (Floats v) ->
  exists df' monthly month,
    assign_month P df = Ok (df', monthly)
    /\ same_except ["Month"] df df'
    /\ df_getitem df' "Month" = Ok (Objects month)
    /\ (sum_values monthly
        == sum_where (fun i => has_key (group_key P (Objects month) i))
             (nrows df) v)%Q
    /\ (has_column df "Date" = false -> monthly = []).
Proof.
  intros Ha.
  assert (Hno : exists df' monthly month,
    Ok (no_month df, @nil (string * Q)) = Ok (df', monthly)
    /\ same_except ["Month"] df df'
    /\ df_getitem df' "Month" = Ok (Objects month)
    /\ (sum_values monthly
        == sum_where (fun i => has_key (group_key P (Objects month) i))
             (nrows df) v)%Q
    /\ (has_column df "Date" = false -> monthly = [])).
  { exists (no_month df), [], (fun _ => CNull).
    split; [reflexivity|]. split; [apply same_except_setitem|].
    split; [apply getitem_setitem_same|]. split; [|reflexivity].
    simpl. change (fun i : nat => has_key (group_key P (Objects (fun _ => CNull)) i))
      with (fun _ : nat => false).
    rewrite sum_where_none. reflexivity. }
  unfold assign_month. destruct (has_column df "Date") eqn:Hd; [|exact Hno].
  destruct (has_column_getitem _ _ Hd) as [date Hdate]. rewrite Hdate. simpl.
  destruct date as [w|w|w]; try exact Hno.
  unfold groupby_sum. rewrite getitem_setitem_same. simpl.
  rewrite getitem_setitem_other by discriminate. rewrite Ha. simpl.
  do 3 eexists. split; [reflexivity|]. split; [apply same_except_setitem|].
  split; [apply getitem_setitem_same|]. split; [|discriminate].
  apply sum_values_group_sum.
Qed.




Lemma assign_category_fresh (df : DataFrame) (desc : Series) :
  has_column df "Category" = false ->
  df_getitem df "Description" = Ok desc ->
  assign_category P df = Ok (df_setitem df "Category" (apply_categorize P desc)).
Proof. unfold assign_category. intros -> ->. reflexivity. Qed.

(** A table that brings a Category column and has a row is refused. *)
Lemma assign_category_refused (df : DataFrame) (desc : Series) :
  has_column df "Category" = true ->
  df_getitem df "Description" = Ok desc ->
  nrows df <> 0%nat ->
  assign_category P df = Raise (ValueError ReplaceDictValue).
Proof.
  unfold assign_category. intros Hc Hd Hn. rewrite Hc. simpl.
  destruct (has_column_getitem _ _ Hc) as [cat ->]. rewrite Hd. simpl.
  unfold Series_replace. apply Nat.eqb_neq in Hn. now rewrite Hn.
Qed.

Lemma summarize_Ok (df : DataFrame) (monthly : list (string * Q))
  (keys : Series) (v : nat -> option Q) :
  df_getitem df "Category" = Ok keys ->
  df_getitem df "Amount" = Ok (Floats v) ->
  summarize P df monthly
  = Ok {| total_income := sum_where (fun i => is_positive (v i)) (nrows df) v;
          total_expense := sum_where (fun i => is_negative (v i)) (nrows df) v;
          net_balance := sum_rows (nrows df) v;
          monthly_summary := monthly;
          category_summary := group_sum (nrows df) (group_key P keys) v;
          rows := nrows df |}.
Proof. unfold summarize, groupby_sum. intros -> ->. reflexivity. Qed.

End Phases.

Section Pipeline.

Variable P : Coercions.

Lemma named_column_not (name c other : string) :
  (name =? lower c)%string = true -> (name =? lower other)%string = false ->
  other <> c.
Proof. intros H1 H2 ->. congruence. Qed.

(** Lines 101-118 on a frame that has the two detected columns: only the
    Description and Amount columns change, and the Amount column holds the
    resolved amounts. *)
Lemma amount_phases (df : DataFrame) (d a : string) (sd sa : Series) :
  df_getitem df d = Ok sd -> df_getitem df a = Ok sa -> a <> "Description" ->
  exists df1 df2 df3 amount,
    assign_description P df d = Ok df1
    /\ debit_credit_fallback P (assign_amount P df1 a) = Ok df2
    /\ final_coercion P df2 = Ok df3
    /\ same_except ["Description"; "Amount"] df df3
    /\ df_getitem df3 "Description"
       = Ok (Objects (fun i => CStr (fillna_astype_str P sd i)))
    /\ df_getitem df3 "Amount" = Ok (Floats amount)
    /\ resolved_amounts P df sa amount.
Proof.
  intros Hd Ha Hne.
  set (df1 := df_setitem df "Description"
                (Objects (fun i => CStr (fillna_astype_str P sd i)))).
  assert (Ha1 : df_getitem df1 a = Ok sa).
  { unfold df1. rewrite getitem_setitem_other; auto. }
  set (df1' := df_setitem df1 "Amount" (Floats (to_numeric P sa))).
  assert (Hamt : df_getitem df1' "Amount" = Ok (Floats (to_numeric P sa)))
    by apply getitem_setitem_same.
  assert (Hdeb : debit_column df1' = debit_column df).
  { unfold df1', df1. now rewrite !debit_column_setitem. }
  assert (Hcre : credit_column df1' = credit_column df).
  { unfold df1', df1. now rewrite !credit_column_setitem. }
  assert (Hraw : forall c, c <> "Description" -> c <> "Amount" ->
                           df_getitem df1' c = df_getitem df c).
  { intros c H1 H2. unfold df1', df1.
    rewrite !getitem_setitem_other; auto. }
  exists df1.
  assert (Hfinal : forall df2 amount2,
    df_getitem df2 "Amount" = Ok (Floats amount2) ->
    same_except ["Description"; "Amount"] df df2 ->
    df_getitem df2 "Description"
    = Ok (Objects (fun i => CStr (fillna_astype_str P sd i))) ->
    exists df3,
      final_coercion P df2 = Ok df3
      /\ same_except ["Description"; "Amount"] df df3
      /\ df_getitem df3 "Description"
         = Ok (Objects (fun i => CStr (fillna_astype_str P sd i)))
      /\ df_getitem df3 "Amount" = Ok (Floats (fillna0 amount2))).
  { intros df2 amount2 H2 [Hn Hs] Hdesc. eexists.
    split; [exact (final_coercion_Ok P df2 amount2 H2)|].
    split; [|split; [|apply getitem_setitem_same]].
    - split; [exact Hn|]. intros c Hc.
      rewrite getitem_setitem_other; [now apply Hs|].
      intros <-. apply Hc. simpl; auto.
    - rewrite getitem_setitem_other by discriminate. exact Hdesc. }
  assert (Hse : same_except ["Description"; "Amount"] df df1').
  { split; [reflexivity|]. intros c Hc. apply Hraw.
    - intros ->. apply Hc. simpl; auto.
    - intros ->. apply Hc. simpl; auto. }
  assert (Hdesc : df_getitem df1' "Description"
                  = Ok (Objects (fun i => CStr (fillna_astype_str P sd i)))).
  { unfold df1'. rewrite getitem_setitem_other by discriminate.
    apply getitem_setitem_same. }
  destruct (debit_column df) as [dc|] eqn:Edc.
  2:{ destruct (Hfinal df1' _ Hamt Hse Hdesc) as [df3 [H3 [H4 [H5 H6]]]].
      exists df1', df3, (fillna0 (to_numeric P sa)).
      split; [now apply assign_description_Ok|].
      split; [rewrite (assign_amount_Ok P df1 a sa Ha1);
              apply (fallback_inactive P df1' _ Hamt); left; congruence|].
      repeat (split; [assumption|]).
      right. split; [auto | reflexivity]. }
  destruct (credit_column df) as [cc|] eqn:Ecc.
  2:{ destruct (Hfinal df1' _ Hamt Hse Hdesc) as [df3 [H3 [H4 [H5 H6]]]].
      exists df1', df3, (fillna0 (to_numeric P sa)).
      split; [now apply assign_description_Ok|].
      split; [rewrite (assign_amount_Ok P df1 a sa Ha1);
              apply (fallback_inactive P df1' _ Hamt); right; left; congruence|].
      repeat (split; [assumption|]).
      right. split; [auto | reflexivity]. }
  destruct (isna_all (nrows df) (to_numeric P sa)) eqn:Ena.
  2:{ destruct (Hfinal df1' _ Hamt Hse Hdesc) as [df3 [H3 [H4 [H5 H6]]]].
      exists df1', df3, (fillna0 (to_numeric P sa)).
      split; [now apply assign_description_Ok|].
      split; [rewrite (assign_amount_Ok P df1 a sa Ha1);
              apply (fallback_inactive P df1' _ Hamt); right; right; exact Ena|].
      repeat (split; [assumption|]).
      right. split; [auto | reflexivity]. }
  pose proof (find_last_Some _ _ _ Edc) as [Hdin Hdp].
  pose proof (find_last_Some _ _ _ Ecc) as [Hcin Hcp].
  destruct (In_columns_getitem _ _ Hdin) as [debit Hdebit].
  destruct (In_columns_getitem _ _ Hcin) as [credit Hcredit].
  assert (Hd' : df_getitem df1' dc = Ok debit).
  { rewrite Hraw; auto;
      apply not_eq_sym; eapply named_column_not; eauto. }
  assert (Hc' : df_getitem df1' cc = Ok credit).
  { rewrite Hraw; auto;
      apply not_eq_sym; eapply named_column_not; eauto. }
  set (fallen := fun i : nat =>
         Some (nan_to_zero (fillna0 (to_numeric P credit) i)
               - nan_to_zero (fillna0 (to_numeric P debit) i))%Q).
  assert (H2 : df_getitem (df_setitem df1' "Amount" (Floats fallen)) "Amount"
               = Ok (Floats fallen)) by apply getitem_setitem_same.
  assert (Hse2 : same_except ["Description"; "Amount"] df
                   (df_setitem df1' "Amount" (Floats fallen))).
  { destruct Hse as [Hn Hs]. split; [exact Hn|]. intros c Hc.
    rewrite getitem_setitem_other; [now apply Hs|].
    intros <-. apply Hc. simpl; auto. }
  assert (Hdesc2 : df_getitem (df_setitem df1' "Amount" (Floats fallen))
                     "Description"
                   = Ok (Objects (fun i => CStr (fillna_astype_str P sd i)))).
  { rewrite getitem_setitem_other by discriminate. exact Hdesc. }
  destruct (Hfinal _ _ H2 Hse2 Hdesc2) as [df3 [H3 [H4 [H5 H6]]]].
  exists (df_setitem df1' "Amount" (Floats fallen)), df3, (fillna0 fallen).
  split; [now apply assign_description_Ok|].
  split.
  { rewrite (assign_amount_Ok P df1 a sa Ha1).
    apply (fallback_active P df1' (to_numeric P sa) dc cc debit credit); auto;
      congruence. }
  repeat (split; [assumption|]).
  left. exists dc, cc, debit, credit. repeat (split; [auto|]).
  intros i. reflexivity.
Qed.

(** The description and amount columns the detector returns are columns of
    the trimmed table, have a non-empty name, and the amount column is not
    the Description column the normalization adds. *)
Lemma detected_columns (df : DataFrame) (d a : string) (dt : option string) :
  _detect_columns (strip_columns df) = (Some d, Some a, dt) ->
  In d (columns (strip_columns df)) /\ In a (columns (strip_columns df))
  /\ truthy_str d = true /\ truthy_str a = true /\ a <> "Description".
Proof.
  intros H.
  destruct (detect_desc (strip_columns df) d) as [Hd1 Hd2]; [now rewrite H|].
  destruct (detect_amt (strip_columns df) a) as [Ha1 Ha2]; [now rewrite H|].
  rewrite strip_stripped_columns in Hd1, Ha1.
  repeat split; auto.
  - destruct d; [discriminate | reflexivity].
  - destruct a; [discriminate | reflexivity].
  - intros ->. discriminate.
Qed.

(** Past the two guards, [process_transactions] is [normalize] on the
    trimmed table. *)
Lemma process_normalize (df : DataFrame) (d a : string) (dt : option string) :
  df_empty df = false ->
  _detect_columns (strip_columns df) = (Some d, Some a, dt) ->
  process_transactions P (ReadFrame df) = normalize P (strip_columns df) d a dt.
Proof.
  intros He Hdet. destruct (detected_columns _ _ _ _ Hdet) as [_ [_ [Hd [Ha _]]]].
  unfold process_transactions. rewrite He, Hdet. simpl. now rewrite Hd, Ha.
Qed.

End Pipeline.

Section Traces.

Variable P : Coercions.

Lemma process_Ok_detected (df : DataFrame) (r : DataFrame * Summary) :
  process_transactions P (ReadFrame df) = Ok r ->
  df_empty df = false
  /\ exists d a dt, _detect_columns (strip_columns df) = (Some d, Some a, dt).
Proof.
  unfold process_transactions. destruct (df_empty df); [discriminate|].
  destruct (_detect_columns (strip_columns df)) as [[[d|] [a|]] dt]; simpl;
    try discriminate.
  - intros _. split; eauto.
  - destruct (negb (truthy_str d)); discriminate.
Qed.


(** A table whose trimmed columns hold the two detected columns and no
    Category column normalizes, and its monthly summary is empty when the
    Date phase leaves it without a Date column. *)
Lemma normalize_succeeds (df : DataFrame) (d a : string) (dt : option string)
  (sd sa : Series) :
  df_getitem df d = Ok sd -> df_getitem df a = Ok sa -> a <> "Description" ->
  has_column df "Category" = false ->
  exists df' s,
    normalize P df d a dt = Ok (df', s)
    /\ (dt = None ->
        (forall cand, In cand date_fallback_names -> has_column df cand = false) ->
        monthly_summary s = []).
Proof.
  intros Hd Ha Hne Hcat.
  destruct (amount_phases P df d a sd sa Hd Ha Hne)
    as [df1 [df2 [df3 [amount [E1 [E2 [E3 [Hse3 [Hd3 [Ha3 _]]]]]]]]]].
  unfold normalize. rewrite E1. simpl. rewrite E2. simpl. rewrite E3. simpl.
  destruct (assign_date_total P df3 dt) as [df4 [E4 [Hse4 _]]].
  rewrite E4. simpl.
  assert (Ha4 : df_getitem df4 "Amount" = Ok (Floats amount)).
  { destruct Hse4 as [_ Hs4]. rewrite Hs4; [exact Ha3|].
    intros [F|[]]; discriminate. }
  destruct (assign_month_total P df4 amount Ha4)
    as [df5 [monthly [month [E5 [Hse5 [Hm5 [_ Hnone]]]]]]].
  rewrite E5. simpl.
  assert (Hd5 : df_getitem df5 "Description"
                = Ok (Objects (fun i => CStr (fillna_astype_str P sd i)))).
  { destruct Hse5 as [_ Hs5]. destruct Hse4 as [_ Hs4].
    rewrite Hs5, Hs4; [exact Hd3| |]; intros [F|[]]; discriminate. }
  assert (Hc5 : has_column df5 "Category" = false).
  { rewrite (same_except_has_column _ _ _ _ Hse5),
            (same_except_has_column _ _ _ _ Hse4),
            (same_except_has_column _ _ _ _ Hse3); auto;
      simpl; intuition discriminate. }
  rewrite (assign_category_fresh P df5 _ Hc5 Hd5). simpl.
  erewrite summarize_Ok;
    [| apply getitem_setitem_same
     | rewrite getitem_setitem_other by discriminate;
       destruct Hse5 as [_ Hs5]; rewrite Hs5; [exact Ha4|];
       intros [F|[]]; discriminate].
  simpl. do 2 eexists. split; [reflexivity|]. simpl.
  intros -> Hcands. apply Hnone.
  assert (Hc3 : forall cand, In cand date_fallback_names ->
                             has_column df3 cand = false).
  { intros cand Hin.
    rewrite (same_except_has_column _ _ _ _ Hse3); [now apply Hcands|].
    simpl in Hin. simpl. intuition (subst; discriminate). }
  unfold assign_date in E4.
  destruct (find (has_column df3) date_fallback_names) as [cand|] eqn:Ef.
  - apply find_some in Ef as [Hin Hc]. rewrite (Hc3 cand Hin) in Hc. discriminate.
  - inversion E4; subst df4. apply Hc3. now left.
Qed.

End Traces.

(** ** The amount resolver *)


Lemma isna_all_false (n : nat) (v : nat -> option Q) :
  isna_all n v = false -> exists i, (i < n)%nat /\ v i <> None.
Proof.
  unfold isna_all. intros H.
  assert (Hex : existsb (fun i => negb match v i with None => true | Some _ => false end)
                  (seq 0 n) = true).
  { induction (seq 0 n) as [|i l IH]; simpl in *; [discriminate|].
    destruct (v i); simpl in *; auto. }
  apply existsb_exists in Hex as [i [Hin Hi]]. exists i. split.
  - apply in_seq in Hin. lia.
  - destruct (v i); [discriminate | discriminate Hi].
Qed.

(** A debit column is found exactly when some column is named debit, case
    ignored; likewise for credit. *)
Lemma debit_column_exists (df : DataFrame) :
  debit_column df <> None <-> exists c, In c (columns df) /\ lower c = "debit".
Proof.
  unfold debit_column. split.
  - destruct (find_last _ (columns df)) as [c|] eqn:E; [|congruence].
    intros _. apply find_last_Some in E as [Hin Hc].
    exists c. split; auto. apply String.eqb_eq in Hc. auto.
  - intros [c [Hin Hc]] E.
    pose proof (find_last_None _ _ E c Hin) as H. simpl in H.
    rewrite Hc in H. discriminate.
Qed.

Lemma credit_column_exists (df : DataFrame) :
  credit_column df <> None <-> exists c, In c (columns df) /\ lower c = "credit".
Proof.
  unfold credit_column. split.
  - destruct (find_last _ (columns df)) as [c|] eqn:E; [|congruence].
    intros _. apply find_last_Some in E as [Hin Hc].
    exists c. split; auto. apply String.eqb_eq in Hc. auto.
  - intros [c [Hin Hc]] E.
    pose proof (find_last_None _ _ E c Hin) as H. simpl in H.
    rewrite Hc in H. discriminate.
Qed.



(** C2, as the code has it.  The table of scenario B has no description-like
    column and is refused with the list of its columns; the amounts
    [-100, 500] come out of the same two rows once the table also has a
    description column and a primary amount column that is empty on every
    row. *)
Theorem scenario_B_amounts (P : Coercions) :
  process_transactions P (ReadFrame scenario_B)
  = Raise (ValueError (ColumnsNotDetected ["Debit"; "Credit"]))
  /\ column_cells P (process_transactions P (ReadFrame scenario_B_blank_amount))
       "Amount"
     = Some [CNum (-100); CNum 500].
Proof. split; reflexivity. Qed.

(** C2 as stated fails: scenario B does not normalize to the amounts
    [-100, 500]. *)
Lemma scenario_B_is_refused :
  column_cells plain_coercions
    (process_transactions plain_coercions (ReadFrame scenario_B)) "Amount"
  <> Some [CNum (-100); CNum 500].
Proof. vm_compute. discriminate. Qed.

(** ** The summary *)


(** ** Tables that are refused *)

Lemma no_date_candidates (df : DataFrame) :
  snd (_detect_columns (strip_columns df)) = None ->
  forall cand, In cand date_fallback_names ->
               has_column (strip_columns df) cand = false.
Proof.
  intros H cand Hin. destruct (has_column (strip_columns df) cand) eqn:E; auto.
  apply has_column_In in E. rewrite <- strip_stripped_columns in E.
  pose proof (detect_no_date _ H cand E) as Hd.
  simpl in Hin. destruct Hin as [<-|[<-|[<-|[<-|[]]]]]; discriminate.
Qed.

(** C7. An empty table is refused for holding no data.  A table with rows in
    which no description column or no amount column is detected is refused
    with the list of all its column names (trimmed, as the detector sees
    them).  The absence of a date column is no error: a table with both
    columns detected, no date column and no Category column of its own
    normalizes, with an empty monthly summary. *)
Theorem undetected_columns_are_reported (P : Coercions) (df : DataFrame) :
  (df_empty df = true ->
   process_transactions P (ReadFrame df) = Raise (ValueError NoData))
  /\ (df_empty df = false ->
      fst (fst (_detect_columns (strip_columns df))) = None
      \/ snd (fst (_detect_columns (strip_columns df))) = None ->
      process_transactions P (ReadFrame df)
      = Raise (ValueError (ColumnsNotDetected (map strip (columns df)))))
  /\ (df_empty df = false ->
      unique_columns df = true ->
      has_column (strip_columns df) "Category" = false ->
      forall d a,
        _detect_columns (strip_columns df) = (Some d, Some a, None) ->
        exists df' s,
          process_transactions P (ReadFrame df) = Ok (df', s)
          /\ monthly_summary s = []).
Proof.
  split; [|split].
  - intros He. unfold process_transactions. now rewrite He.
  - intros He H. unfold process_transactions. rewrite He.
    rewrite columns_strip_columns.
    destruct (_detect_columns (strip_columns df)) as [[od oa] dt].
    simpl in H. destruct H as [-> | ->]; simpl; [reflexivity|].
    now rewrite orb_true_r.
  - intros He _ Hcat d a Hdet.
    rewrite (process_normalize P df d a None He Hdet).
    destruct (detected_columns _ _ _ _ Hdet) as [Hd [Ha [_ [_ Hne]]]].
    destruct (In_columns_getitem _ _ Hd) as [sd Hsd].
    destruct (In_columns_getitem _ _ Ha) as [sa Hsa].
    destruct (normalize_succeeds P _ d a None sd sa Hsd Hsa Hne Hcat)
      as [df' [s [H Hm]]].
    exists df', s. split; [exact H|]. apply Hm; [reflexivity|].
    apply no_date_candidates. now rewrite Hdet.
Qed.

Lemma undetected_columns_are_reported_witness :
  process_transactions plain_coercions (ReadFrame header_only)
  = Raise (ValueError NoData)
  /\ process_transactions plain_coercions (ReadFrame scenario_D)
     = Raise (ValueError (ColumnsNotDetected ["Narration"; "When"]))
  /\ exists df' s,
       process_transactions plain_coercions (ReadFrame scenario_A) = Ok (df', s)
       /\ monthly_summary s = [].
Proof.
  split; [|split].
  - apply (undetected_columns_are_reported plain_coercions header_only).
    reflexivity.
  - apply (undetected_columns_are_reported plain_coercions scenario_D).
    + reflexivity.
    + right. reflexivity.
  - apply (undetected_columns_are_reported plain_coercions scenario_A)
      with (d := "Narration") (a := "Amount"); reflexivity.
Defined.

(** Every table that has rows, both detected columns and a Category column
    of its own is refused by the Category phase. *)
Lemma category_column_refused (P : Coercions) (df : DataFrame) (d a : string)
  (dt : option string) :
  df_empty df = false ->
  _detect_columns (strip_columns df) = (Some d, Some a, dt) ->
  has_column (strip_columns df) "Category" = true ->
  process_transactions P (ReadFrame df) = Raise (ValueError ReplaceDictValue).
Proof.
  intros He Hdet Hcat. rewrite (process_normalize P df d a dt He Hdet).
  destruct (detected_columns _ _ _ _ Hdet) as [Hd [Ha [_ [_ Hne]]]].
  destruct (In_columns_getitem _ _ Hd) as [sd Hsd].
  destruct (In_columns_getitem _ _ Ha) as [sa Hsa].
  destruct (amount_phases P _ d a sd sa Hsd Hsa Hne)
    as [df1 [df2 [df3 [amount [E1 [E2 [E3 [Hse3 [Hd3 [Ha3 _]]]]]]]]]].
  unfold normalize. rewrite E1. simpl. rewrite E2. simpl. rewrite E3. simpl.
  destruct (assign_date_total P df3 dt) as [df4 [E4 [Hse4 _]]].
  rewrite E4. simpl.
  assert (Ha4 : df_getitem df4 "Amount" = Ok (Floats amount)).
  { destruct Hse4 as [_ Hs4]. rewrite Hs4; [exact Ha3|].
    intros [F|[]]; discriminate. }
  destruct (assign_month_total P df4 amount Ha4)
    as [df5 [monthly [month [E5 [Hse5 _]]]]].
  rewrite E5. simpl.
  assert (Hd5 : df_getitem df5 "Description"
                = Ok (Objects (fun i => CStr (fillna_astype_str P sd i)))).
  { destruct Hse5 as [_ Hs5]. destruct Hse4 as [_ Hs4].
    rewrite Hs5, Hs4; [exact Hd3| |]; intros [F|[]]; discriminate. }
  assert (Hc5 : has_column df5 "Category" = true).
  { rewrite (same_except_has_column _ _ _ _ Hse5),
            (same_except_has_column _ _ _ _ Hse4),
            (same_except_has_column _ _ _ _ Hse3); auto;
      simpl; intuition discriminate. }
  rewrite (assign_category_refused P df5 _ Hc5 Hd5); [reflexivity|].
  destruct Hse5 as [-> _]. destruct Hse4 as [-> _]. destruct Hse3 as [-> _].
  unfold df_empty in He. apply orb_false_iff in He as [He _].
  now apply Nat.eqb_neq in He.
Qed.

(** C6 fails on the code.  The table with the rows (SALARY, 100, Bonus) and
    (ZOMATO, -20, no category) should keep Bonus and classify the second row
    as Food; the Category phase raises instead and no category comes out. *)
Theorem with_category_is_refused (P : Coercions) :
  process_transactions P (ReadFrame with_category)
  = Raise (ValueError ReplaceDictValue)
  /\ column_cells P (process_transactions P (ReadFrame with_category)) "Category"
     <> Some [CStr "Bonus"; CStr "Food"].
Proof. split; [reflexivity | discriminate]. Qed.

(** ** The upload *)

(** C8, as the code has it.  An upload that ends in an error leaves the
    stored dataset as it was.  An upload that reports success has normalized
    the table; the store then holds the new dataset when writing it did not
    raise, and whatever the failed write left when it did.  Success is
    reported whenever the file is saved and the table normalizes, whether or
    not the dataset could be written. *)
Theorem upload_store_outcomes (P : Coercions) (d : Disk) (w : World)
  (file : UploadFile) :
  (forall status detail,
      snd (upload_excel P d w file) = HTTPException status detail ->
      pickle (fst (upload_excel P d w file)) = pickle w)
  /\ (forall body,
         snd (upload_excel P d w file) = JSON body ->
         exists df,
           process_transactions P
             (read_table d (files (fst (upload_excel P d w file)))
                (os_path_join "uploads" (upload_name file)))
           = Ok (df, summary body)
           /\ pickle (fst (upload_excel P d w file))
              = match to_pickle_error d with
                | None => Saved df
                | Some after => after
                end)
  /\ (forall df sm,
         existsb (fun ext => endswith (lower (upload_name file)) ext)
           supported_extensions = true ->
         save_error d = None ->
         process_transactions P
           (read_table d
              (set_assoc (os_path_join "uploads" (upload_name file))
                 (content file) (files w))
              (os_path_join "uploads" (upload_name file)))
         = Ok (df, sm) ->
         snd (upload_excel P d w file)
         = JSON {| message := "File uploaded & processed successfully!";
                   summary := sm |}).
Proof.
  unfold upload_excel.
  destruct (existsb _ supported_extensions); cbn [negb].
  2:{ split; [reflexivity | split; discriminate]. }
  destruct (save_error d).
  { split; [reflexivity | split; discriminate]. }
  cbn [files pickle].
  destruct (process_transactions P _) as [[df sm]|e] eqn:E.
  - split; [discriminate|]. split.
    + intros body Hb. cbn [snd] in Hb.
      inversion Hb; subst body; clear Hb. exists df. cbn [summary].
      destruct (to_pickle_error d); cbn [fst files pickle]; rewrite E; auto.
    + intros df0 sm0 _ _ H. inversion H; subst. reflexivity.
  - destruct e; (split; [reflexivity | split; [discriminate|]]);
      intros df0 sm0 _ _ H; discriminate.
Qed.

Lemma upload_store_outcomes_witness :
  pickle (fst (upload_excel plain_coercions sound_disk empty_world unnamed_upload))
  = pickle empty_world
  /\ exists df,
       process_transactions plain_coercions
         (read_table sound_disk
            (files (fst (upload_excel plain_coercions sound_disk empty_world
                           statement_csv)))
            (os_path_join "uploads" (upload_name statement_csv)))
       = Ok (df, snd (normalized plain_coercions scenario_A))
       /\ pickle (fst (upload_excel plain_coercions sound_disk empty_world
                         statement_csv))
          = Saved df.
Proof.
  split.
  - apply (proj1 (upload_store_outcomes plain_coercions sound_disk empty_world
                    unnamed_upload) 400%nat UnsupportedFileType).
    reflexivity.
  - apply (proj1 (proj2 (upload_store_outcomes plain_coercions sound_disk
                           empty_world statement_csv))
             {| message := "File uploaded & processed successfully!";
                summary := snd (normalized plain_coercions scenario_A) |}).
    reflexivity.
Defined.

(** C8 as stated fails: when writing the dataset raises, the upload still
    reports success and the store holds no dataset. *)
Lemma upload_reports_success_without_store :
  (exists body,
      snd (upload_excel plain_coercions full_disk empty_world statement_csv)
      = JSON body)
  /\ pickle (fst (upload_excel plain_coercions full_disk empty_world
                    statement_csv)) = Absent.
Proof. split; [eexists|]; reflexivity. Qed.






(** ** The query *)

(** C9, as the code has it.  A query without a configured credential is
    answered 503, whatever the store holds.  With a credential and no stored
    dataset it is answered 404.  A query that succeeds returns the question
    as it was asked next to the answer of the model, and a query with both
    settings, a stored dataset and a completion whose content is not empty
    does succeed with that content. *)
Theorem query_outcomes (cfg : Config) (sv : Services) (w : World) (q : string) :
  (client_is_none cfg = true ->
   query_financial cfg sv w q = HTTPException 503 KeyNotConfigured)
  /\ (client_is_none cfg = false -> pickle w = Absent ->
      query_financial cfg sv w q = HTTPException 404 NoTransactions)
  /\ (forall body,
         query_financial cfg sv w q = JSON body ->
         question body = q
         /\ exists df, pickle w = Saved df
                       /\ ask_ai cfg sv df q = inr (answer body))
  /\ (forall df m response content,
         client_is_none cfg = false ->
         GROQ_MODEL cfg = Some m -> truthy_str m = true ->
         pickle w = Saved df ->
         create_completion sv m (build_prompt (df_json_of sv df) q)
         = CompletionReturns response ->
         extract_content response = Some content ->
         py_truthy content = true ->
         query_financial cfg sv w q = JSON {| question := q; answer := content |}).
Proof.
  unfold query_financial. split; [|split; [|split]].
  - now intros ->.
  - now intros -> ->.
  - intros body. destruct (client_is_none cfg); [discriminate|].
    destruct (pickle w) as [|df|]; try discriminate.
    destruct (ask_ai cfg sv df q) as [e|ans] eqn:E; [discriminate|].
    intros H; inversion H; subst body; clear H. cbn [question answer].
    split; [reflexivity|]. now exists df.
  - intros df m response content Hc Hm Ht Hp Hcomp Hext Hcont.
    rewrite Hc, Hp. unfold ask_ai. rewrite Hc, Hm. cbn [truthy].
    rewrite Ht. cbn [negb orb]. now rewrite Hcomp, Hext, Hcont.
Qed.

Lemma query_outcomes_witness :
  query_financial no_key echo_services empty_world "How much did I spend?"
  = HTTPException 503 KeyNotConfigured
  /\ query_financial full_config echo_services empty_world "How much did I spend?"
     = HTTPException 404 NoTransactions
  /\ query_financial full_config echo_services
       {| files := []; pickle := Saved scenario_A |} "How much did I spend?"
     = JSON {| question := "How much did I spend?"; answer := PyStr "42" |}.
Proof.
  split; [|split].
  - apply (query_outcomes no_key echo_services empty_world). reflexivity.
  - apply (query_outcomes full_config echo_services empty_world); reflexivity.
  - eapply (proj2 (proj2 (proj2
              (query_outcomes full_config echo_services
                 {| files := []; pickle := Saved scenario_A |}
                 "How much did I spend?")))); reflexivity.
Defined.

(** C9 as stated fails: with no stored dataset and no credential the query
    is answered 503, not 404. *)
Lemma query_without_key_is_503 :
  pickle empty_world = Absent
  /\ query_financial no_key echo_services empty_world "How much did I spend?"
     = HTTPException 503 KeyNotConfigured
  /\ query_financial no_key echo_services empty_world "How much did I spend?"
     <> HTTPException 404 NoTransactions.
Proof. split; [reflexivity | split; [reflexivity | discriminate]]. Qed.

(** A missing model identifier, with a credential and a stored dataset, is
    answered 502, the status of a failed call to the model. *)
Lemma query_without_model_is_502 (sv : Services) (df : DataFrame) (q : string) :
  query_financial {| GROQ_API_KEY := Some "gsk"; GROQ_MODEL := None |} sv
    {| files := []; pickle := Saved df |} q
  = HTTPException 502 (AskFailed NotConfigured).
Proof. reflexivity. Qed.

(** ** The column detector: case, padding and completeness *)

Lemma hd_filter_lower (p : string -> bool) (cols : list string) :
  option_map lower (hd_error (filter (fun c => p (lower c)) cols))
  = hd_error (filter p (map lower cols)).
Proof.
  induction cols as [|c cols IH]; simpl; [reflexivity|].
  destruct (p (lower c)); [reflexivity | exact IH].
Qed.

Lemma first_by_lower_filter (q : string -> bool) (cols : list string) :
  option_map lower (hd_error (first_by_lower q cols (map lower cols)))
  = hd_error (filter q (map lower cols)).
Proof.
  unfold first_by_lower. induction cols as [|c cols IH]; simpl; [reflexivity|].
  destruct (q (lower c)); [reflexivity|].
  destruct (find_index q (map lower cols)) as [i|]; simpl in *; exact IH.
Qed.

Lemma first_or_fallback_lower (p q : string -> bool) (cols : list string) :
  option_map lower
    (hd_error match filter (fun c => p (lower c)) cols with
              | [] => first_by_lower q cols (map lower cols)
              | _ => filter (fun c => p (lower c)) cols
              end)
  = first_of p q (map lower cols).
Proof.
  unfold first_of. rewrite <- hd_filter_lower, <- first_by_lower_filter.
  destruct (filter (fun c => p (lower c)) cols); reflexivity.
Qed.

(** What the detector finds depends only on the trimmed, lower-cased names
    and their order. *)
Lemma lowered_detection (df : DataFrame) :
  lowered (_detect_columns df)
  = (let l := map lower (map strip (columns df)) in
     (first_of (fun c => in_list c desc_vocabulary)
        (fun c => contains "desc" c || contains "narr" c
                  || contains "particular" c) l,
      first_of (fun c => contains "amount" c || in_list c amt_vocabulary)
        (fun c => contains "amt" c || contains "debit" c
                  || contains "credit" c || contains "balance" c) l,
      hd_error (filter (fun c => contains "date" c || contains "txn date" c
                                 || contains "transaction date" c) l))).
Proof.
  unfold lowered, _detect_columns. cbn [fst snd].
  rewrite (first_or_fallback_lower (fun c => in_list c desc_vocabulary)).
  rewrite (first_or_fallback_lower
             (fun c => contains "amount" c || in_list c amt_vocabulary)).
  rewrite (hd_filter_lower
             (fun c => contains "date" c || contains "txn date" c
                       || contains "transaction date" c)).
  reflexivity.
Qed.

(** X1. Two tables whose column names agree once trimmed and lower-cased
    get the same columns detected for the three roles, up to the case of the
    names. *)
Theorem detect_ignores_case_and_padding (df1 df2 : DataFrame) :
  map lower (map strip (columns df1)) = map lower (map strip (columns df2)) ->
  lowered (_detect_columns df1) = lowered (_detect_columns df2).
Proof. intros H. rewrite !lowered_detection. now rewrite H. Qed.

Lemma detect_ignores_case_and_padding_witness :
  lowered (_detect_columns scenario_A)
  = lowered (_detect_columns scenario_A_respelled).
Proof.
  apply (detect_ignores_case_and_padding scenario_A scenario_A_respelled).
  reflexivity.
Defined.

Lemma append_assoc (a b c : string) : (a ++ b) ++ c = a ++ (b ++ c).
Proof. induction a as [|x a IH]; simpl; [reflexivity | now rewrite IH]. Qed.

Lemma find_index_lt {A : Type} (p : A -> bool) (l : list A) (i : nat) :
  find_index p l = Some i -> (i < length l)%nat.
Proof.
  revert i; induction l as [|x l IH]; intros i; simpl; [discriminate|].
  destruct (p x).
  - intros H; inversion H. lia.
  - destruct (find_index p l) as [j|]; [|discriminate].
    intros H; inversion H. specialize (IH j eq_refl). lia.
Qed.

Lemma find_index_some {A : Type} (p : A -> bool) (l : list A) (x : A) :
  In x l -> p x = true -> find_index p l <> None.
Proof.
  induction l as [|y l IH]; simpl; [contradiction|].
  intros [-> | Hin] Hp.
  - rewrite Hp. discriminate.
  - destruct (p y); [discriminate|].
    destruct (find_index p l); [discriminate | now apply IH in Hin].
Qed.

Lemma first_or_fallback_complete (p q : string -> bool) (cols : list string)
  (c : string) :
  In c cols -> (p c || q (lower c)) = true ->
  hd_error match filter p cols with
           | [] => first_by_lower q cols (map lower cols)
           | _ => filter p cols
           end <> None.
Proof.
  intros Hin H. destruct (filter p cols) as [|y l] eqn:E; [|discriminate].
  assert (Hp : p c = false).
  { destruct (p c) eqn:Ep; auto.
    assert (Hf : In c (filter p cols)) by (apply filter_In; auto).
    rewrite E in Hf. contradiction. }
  rewrite Hp in H. simpl in H. unfold first_by_lower.
  destruct (find_index q (map lower cols)) as [i|] eqn:Ef.
  - pose proof (find_index_lt _ _ _ Ef) as Hlt. rewrite length_map in Hlt.
    destruct (nth_error cols i) eqn:En; [discriminate|].
    apply nth_error_None in En. lia.
  - exfalso. apply (find_index_some q (map lower cols) (lower c)); auto.
    now apply in_map.
Qed.

(** X2. A role is detected exactly when some trimmed column name looks like
    it: a description when the name is in the description vocabulary or
    contains desc, narr or particular; an amount when it contains amount,
    amt, debit, credit or balance or is the name value; a date when it
    contains date (all with case ignored).  The detected name is such a
    column. *)
Theorem detection_complete (df : DataFrame) :
  (forall d, fst (fst (_detect_columns df)) = Some d ->
             In d (map strip (columns df)) /\ desc_like d = true)
  /\ (fst (fst (_detect_columns df)) <> None <->
      exists c, In c (map strip (columns df)) /\ desc_like c = true)
  /\ (forall a, snd (fst (_detect_columns df)) = Some a ->
                In a (map strip (columns df)) /\ amt_like a = true)
  /\ (snd (fst (_detect_columns df)) <> None <->
      exists c, In c (map strip (columns df)) /\ amt_like c = true)
  /\ (forall t, snd (_detect_columns df) = Some t ->
                In t (map strip (columns df))
                /\ occurs_ignoring_case "date" t)
  /\ (snd (_detect_columns df) <> None <->
      exists c, In c (map strip (columns df)) /\ occurs_ignoring_case "date" c).
Proof.
  assert (Hdate : forall c, date_like c = true <-> occurs_ignoring_case "date" c).
  { intros c. unfold date_like. rewrite <- contains_lower. split.
    - intros H. apply orb_true_iff in H as [H | H];
        [apply orb_true_iff in H as [H | H]; [exact H|]|];
        apply contains_app in H as [pre [post ->]]; apply contains_app.
      + exists (pre ++ "txn "), post. now rewrite append_assoc.
      + exists (pre ++ "transaction "), post. now rewrite append_assoc.
    - intros ->. reflexivity. }
  split; [exact (detect_desc df)|]. split.
  { split.
    - destruct (fst (fst (_detect_columns df))) as [d|] eqn:E; [|congruence].
      intros _. exists d. now apply detect_desc.
    - intros [c [Hin Hc]]. unfold _detect_columns; cbn [fst snd].
      apply (first_or_fallback_complete _ _ _ c Hin). exact Hc. }
  split; [exact (detect_amt df)|]. split.
  { split.
    - destruct (snd (fst (_detect_columns df))) as [a|] eqn:E; [|congruence].
      intros _. exists a. now apply detect_amt.
    - intros [c [Hin Hc]]. unfold _detect_columns; cbn [fst snd].
      apply (first_or_fallback_complete _ _ _ c Hin). exact Hc. }
  split.
  { intros t Ht. destruct (detect_date df t Ht) as [Hin Hl].
    split; [exact Hin | now apply Hdate]. }
  split.
  - destruct (snd (_detect_columns df)) as [t|] eqn:E; [|congruence].
    intros _. exists t. destruct (detect_date df t E) as [Hin Hl].
    split; [exact Hin | now apply Hdate].
  - intros [c [Hin Hc]] E. apply Hdate in Hc.
    rewrite (detect_no_date df E c Hin) in Hc. discriminate.
Qed.

Lemma detection_complete_witness :
  (In "NARRATION" (map strip (columns scenario_A_respelled))
   /\ desc_like "NARRATION" = true)
  /\ snd (fst (_detect_columns scenario_B)) <> None.
Proof.
  split.
  - apply (proj1 (detection_complete scenario_A_respelled)). reflexivity.
  - apply (proj1 (proj2 (proj2 (proj2 (detection_complete scenario_B))))).
    exists "Debit". split; [now left | reflexivity].
Defined.

(** ** The normalized frame, column by column *)

Section Frames.

Variable P : Coercions.

Lemma assign_date_detected (df : DataFrame) (c : string) (sc : Series) :
  truthy_str c = true -> df_getitem df c = Ok sc ->
  assign_date P df (Some c)
  = Ok (df_setitem df "Date" (Datetimes (to_datetime P sc))).
Proof.
  intros Ht Hc. unfold assign_date.
  rewrite Ht, (getitem_has_column _ _ _ Hc), Hc. reflexivity.
Qed.

Lemma assign_date_absent (df : DataFrame) :
  (forall cand, In cand date_fallback_names -> has_column df cand = false) ->
  assign_date P df None = Ok df.
Proof.
  intros H. unfold assign_date.
  destruct (find (has_column df) date_fallback_names) as [cand|] eqn:Ef;
    [|reflexivity].
  apply find_some in Ef as [Hin Hc]. rewrite (H cand Hin) in Hc. discriminate.
Qed.

Lemma assign_month_dated (df : DataFrame) (v : nat -> option Q)
  (w : nat -> option Timestamp) :
  df_getitem df "Amount" = Ok (Floats v) ->
  df_getitem df "Date" = Ok (Datetimes w) ->
  assign_month P df
  = Ok (df_setitem df "Month" (Objects (fun i => month_cell (w i))),
        group_sum (nrows df)
          (group_key P (Objects (fun i => month_cell (w i)))) v).
Proof.
  intros Ha Hd. unfold assign_month.
  rewrite (getitem_has_column _ _ _ Hd), Hd. simpl.
  unfold groupby_sum. rewrite getitem_setitem_same. simpl.
  rewrite getitem_setitem_other by discriminate. now rewrite Ha.
Qed.

Lemma assign_month_undated (df : DataFrame) :
  has_column df "Date" = false ->
  assign_month P df = Ok (no_month df, []).
Proof. unfold assign_month. now intros ->. Qed.

Lemma assign_category_inv (df df' : DataFrame) :
  nrows df <> 0%nat ->
  assign_category P df = Ok df' ->
  has_column df "Category" = false
  /\ exists desc, df_getitem df "Description" = Ok desc
                  /\ df' = df_setitem df "Category" (apply_categorize P desc).
Proof.
  intros Hn. unfold assign_category.
  destruct (has_column df "Category"); simpl.
  - intros H. apply bind_Ok in H as [cat [_ H]].
    apply bind_Ok in H as [desc [_ H]].
    apply bind_Ok in H as [replaced [Hr _]].
    unfold Series_replace in Hr. apply Nat.eqb_neq in Hn. rewrite Hn in Hr.
    discriminate.
  - intros H. apply bind_Ok in H as [desc [Hd H]]. inversion H.
    split; [reflexivity|]. now exists desc.
Qed.

(** The frame and the summary a successful normalization returns, in terms
    of the trimmed table [df], its detected columns and the Date column the
    Date phase leaves. *)
Lemma normalize_frame (df : DataFrame) (d a : string) (dt : option string)
  (sd sa : Series) (df' : DataFrame) (s : Summary) :
  df_getitem df d = Ok sd -> df_getitem df a = Ok sa -> a <> "Description" ->
  nrows df <> 0%nat ->
  normalize P df d a dt = Ok (df', s) ->
  exists amount,
    same_except canonical_columns df df'
    /\ has_column df "Category" = false
    /\ resolved_amounts P df sa amount
    /\ df_getitem df' "Description"
       = Ok (Objects (fun i => CStr (fillna_astype_str P sd i)))
    /\ df_getitem df' "Amount" = Ok (Floats amount)
    /\ df_getitem df' "Category"
       = Ok (apply_categorize P
               (Objects (fun i => CStr (fillna_astype_str P sd i))))
    /\ category_summary s
       = group_sum (nrows df)
           (group_key P (apply_categorize P
                           (Objects (fun i => CStr (fillna_astype_str P sd i)))))
           amount
    /\ rows s = nrows df
    /\ exists df3,
         same_except ["Description"; "Amount"] df df3
         /\ ((exists df4 w,
                 assign_date P df3 dt = Ok df4
                 /\ df_getitem df4 "Date" = Ok (Datetimes w)
                 /\ df_getitem df' "Date" = Ok (Datetimes w)
                 /\ df_getitem df' "Month"
                    = Ok (Objects (fun i => month_cell (w i)))
                 /\ monthly_summary s
                    = group_sum (nrows df)
                        (group_key P (Objects (fun i => month_cell (w i))))
                        amount)
             \/ (assign_date P df3 dt = Ok df3
                 /\ has_column df3 "Date" = false
                 /\ has_column df' "Date" = false
                 /\ df_getitem df' "Month" = Ok (Objects (fun _ => CNull))
                 /\ monthly_summary s = [])).
Proof.
  intros Hd Ha Hne Hn H.
  destruct (amount_phases P df d a sd sa Hd Ha Hne)
    as [df1 [df2 [df3 [amount [E1 [E2 [E3 [Hse3 [Hd3 [Ha3 Hres]]]]]]]]]].
  unfold normalize in H. rewrite E1 in H. simpl in H.
  rewrite E2 in H. simpl in H. rewrite E3 in H. simpl in H.
  destruct (assign_date_total P df3 dt) as [df4 [E4 [Hse4 Hdt4]]].
  rewrite E4 in H. simpl in H.
  assert (Ha4 : df_getitem df4 "Amount" = Ok (Floats amount)).
  { destruct Hse4 as [_ Hs4]. rewrite Hs4; [exact Ha3|].
    intros [F|[]]; discriminate. }
  assert (Hd4 : df_getitem df4 "Description"
                = Ok (Objects (fun i => CStr (fillna_astype_str P sd i)))).
  { destruct Hse4 as [_ Hs4]. rewrite Hs4; [exact Hd3|].
    intros [F|[]]; discriminate. }
  assert (Hn4 : nrows df4 = nrows df).
  { destruct Hse4 as [-> _]. now destruct Hse3. }
  assert (Hraw4 : forall c, ~ In c canonical_columns ->
                            df_getitem df4 c = df_getitem df c).
  { intros c Hc. destruct Hse4 as [_ Hs4]. destruct Hse3 as [_ Hs3].
    rewrite Hs4, Hs3; auto; intros Hin; apply Hc; simpl in *; intuition. }
  assert (Hcat34 : has_column df4 "Category" = has_column df "Category").
  { rewrite (same_except_has_column _ _ _ _ Hse4),
            (same_except_has_column _ _ _ _ Hse3); auto;
      simpl; intuition discriminate. }
  (* the Month phase, then the Category phase and the summary *)
  assert (Htail : forall df5 monthly,
    same_except ["Month"] df4 df5 ->
    (df <- assign_category P df5 ;;
     summary <- summarize P df monthly ;; Ok (df, summary)) = Ok (df', s) ->
    same_except canonical_columns df df'
    /\ has_column df "Category" = false
    /\ df_getitem df' "Description"
       = Ok (Objects (fun i => CStr (fillna_astype_str P sd i)))
    /\ df_getitem df' "Amount" = Ok (Floats amount)
    /\ df_getitem df' "Category"
       = Ok (apply_categorize P
               (Objects (fun i => CStr (fillna_astype_str P sd i))))
    /\ category_summary s
       = group_sum (nrows df)
           (group_key P (apply_categorize P
                           (Objects (fun i => CStr (fillna_astype_str P sd i)))))
           amount
    /\ rows s = nrows df
    /\ monthly_summary s = monthly
    /\ (forall c, c <> "Category" -> df_getitem df' c = df_getitem df5 c)).
  { intros df5 monthly [Hn5 Hs5] H5.
    apply bind_Ok in H5 as [df6 [E6 H5]].
    assert (Hn5' : nrows df5 <> 0%nat) by congruence.
    destruct (assign_category_inv df5 df6 Hn5' E6) as [Hc5 [desc [Hdesc ->]]].
    rewrite Hs5, Hd4 in Hdesc by (intros [F|[]]; discriminate).
    inversion Hdesc; subst desc; clear Hdesc.
    assert (Ha6 : df_getitem
                    (df_setitem df5 "Category"
                       (apply_categorize P
                          (Objects (fun i => CStr (fillna_astype_str P sd i)))))
                    "Amount" = Ok (Floats amount)).
    { rewrite getitem_setitem_other by discriminate.
      rewrite Hs5; [exact Ha4|]. intros [F|[]]; discriminate. }
    rewrite (summarize_Ok P _ monthly _ amount
               (getitem_setitem_same _ _ _) Ha6) in H5.
    simpl in H5. inversion H5; subst df' s; clear H5. cbn [category_summary rows
      monthly_summary nrows df_setitem].
    split.
    { split; [cbn [nrows df_setitem]; congruence|]. intros c Hc.
      rewrite getitem_setitem_other, Hs5, Hraw4; auto;
        intros Hin; apply Hc; simpl in *; intuition. }
    split.
    { rewrite <- Hcat34, <- (same_except_has_column ["Month"] df4 df5);
        [exact Hc5 | split; auto | intros [F|[]]; discriminate]. }
    split.
    { rewrite getitem_setitem_other by discriminate.
      rewrite Hs5; [exact Hd4|]. intros [F|[]]; discriminate. }
    split; [exact Ha6|]. split; [apply getitem_setitem_same|].
    rewrite Hn5, Hn4. repeat (split; [reflexivity|]).
    intros c Hc. apply getitem_setitem_other. congruence. }
  exists amount.
  destruct (has_column df4 "Date") eqn:Hhas.
  - destruct (Hdt4 eq_refl) as [w Hw].
    rewrite (assign_month_dated df4 amount w Ha4 Hw) in H. simpl in H.
    destruct (Htail _ _ (same_except_setitem df4 "Month" _) H)
      as [T1 [T2 [T3 [T4 [T5 [T6 [T7 [T8 T9]]]]]]]].
    repeat (split; [assumption|]).
    exists df3. split; [exact Hse3|]. left. exists df4, w.
    split; [exact E4|]. split; [exact Hw|].
    split; [rewrite T9 by discriminate;
            rewrite getitem_setitem_other by discriminate; exact Hw|].
    split; [rewrite T9 by discriminate; apply getitem_setitem_same|].
    rewrite T8, Hn4. reflexivity.
  - rewrite (assign_month_undated df4 Hhas) in H. simpl in H.
    destruct (Htail _ _ (same_except_setitem df4 "Month" _) H)
      as [T1 [T2 [T3 [T4 [T5 [T6 [T7 [T8 T9]]]]]]]].
    repeat (split; [assumption|]).
    exists df3. split; [exact Hse3|]. right.
    assert (E : df4 = df3).
    { unfold assign_date in E4.
      assert (Hfind :
        match find (has_column df3) date_fallback_names with
        | Some cand =>
            s0 <- df_getitem df3 cand ;;
            Ok (df_setitem df3 "Date" (Datetimes (to_datetime P s0)))
        | None => Ok df3
        end = Ok df4 -> df4 = df3).
      { destruct (find (has_column df3) date_fallback_names) as [cand|] eqn:Ef.
        - intros Hb. apply bind_Ok in Hb as [s0 [_ Hb]]. inversion Hb; subst df4.
          rewrite has_column_setitem in Hhas. discriminate.
        - intros Hb. now inversion Hb. }
      destruct dt as [c|]; [|now apply Hfind].
      destruct (truthy_str c && has_column df3 c); [|now apply Hfind].
      apply bind_Ok in E4 as [s0 [_ Hb]]. inversion Hb; subst df4.
      rewrite has_column_setitem in Hhas. discriminate. }
    subst df4. split; [exact E4|]. split; [exact Hhas|].
    split.
    { rewrite has_column_assoc. rewrite has_column_assoc in Hhas.
      specialize (T9 "Date"). unfold df_getitem in T9.
      unfold no_month, df_setitem in T9. cbn [data] in T9.
      rewrite assoc_set_other in T9 by discriminate.
      destruct (assoc "Date" (data df')), (assoc "Date" (data df3));
        try reflexivity; try discriminate.
      specialize (T9 ltac:(discriminate)). discriminate. }
    split; [rewrite T9 by discriminate; apply getitem_setitem_same | exact T8].
Qed.

End Frames.

(** ** Which tables normalize *)

Lemma detect_desc_none (df : DataFrame) :
  fst (fst (_detect_columns df)) = None -> ~ some_column desc_like df.
Proof.
  intros H [c [Hin Hc]]. revert H. unfold _detect_columns; cbn [fst snd].
  now apply (first_or_fallback_complete _ _ _ c Hin).
Qed.

Lemma detect_amt_none (df : DataFrame) :
  snd (fst (_detect_columns df)) = None -> ~ some_column amt_like df.
Proof.
  intros H [c [Hin Hc]]. revert H. unfold _detect_columns; cbn [fst snd].
  now apply (first_or_fallback_complete _ _ _ c Hin).
Qed.

Lemma some_column_strip (p : string -> bool) (df : DataFrame) :
  some_column p (strip_columns df) <-> some_column p df.
Proof.
  unfold some_column. now rewrite strip_stripped_columns, columns_strip_columns.
Qed.

(** The outcome of the normalization, case by case. *)
Lemma process_decided (P : Coercions) (df : DataFrame) :
  match process_transactions P (ReadFrame df) with
  | Ok _ =>
      df_empty df = false
      /\ some_column desc_like df /\ some_column amt_like df
      /\ has_column (strip_columns df) "Category" = false
  | Raise (ValueError NoData) => df_empty df = true
  | Raise (ValueError (ColumnsNotDetected found)) =>
      df_empty df = false
      /\ found = map strip (columns df)
      /\ (~ some_column desc_like df \/ ~ some_column amt_like df)
  | Raise (ValueError ReplaceDictValue) =>
      df_empty df = false
      /\ some_column desc_like df /\ some_column amt_like df
      /\ has_column (strip_columns df) "Category" = true
  | Raise _ => False
  end.
Proof.
  destruct (df_empty df) eqn:He.
  { unfold process_transactions. now rewrite He. }
  destruct (_detect_columns (strip_columns df)) as [[od oa] dt] eqn:Hdet.
  assert (Hmiss : od = None \/ oa = None ->
    process_transactions P (ReadFrame df)
    = Raise (ValueError (ColumnsNotDetected (map strip (columns df))))).
  { intros H. unfold process_transactions. rewrite He, Hdet.
    rewrite columns_strip_columns.
    destruct H as [-> | ->]; simpl; [reflexivity | now rewrite orb_true_r]. }
  destruct od as [d|].
  2:{ rewrite Hmiss by auto. repeat split. left.
      rewrite <- some_column_strip. apply detect_desc_none. now rewrite Hdet. }
  destruct oa as [a|].
  2:{ rewrite Hmiss by auto. repeat split. right.
      rewrite <- some_column_strip. apply detect_amt_none. now rewrite Hdet. }
  assert (Hdesc : some_column desc_like df).
  { rewrite <- some_column_strip. exists d. apply detect_desc. now rewrite Hdet. }
  assert (Hamt : some_column amt_like df).
  { rewrite <- some_column_strip. exists a. apply detect_amt. now rewrite Hdet. }
  destruct (has_column (strip_columns df) "Category") eqn:Hcat.
  - rewrite (category_column_refused P df d a dt He Hdet Hcat). auto.
  - rewrite (process_normalize P df d a dt He Hdet).
    destruct (detected_columns _ _ _ _ Hdet) as [Hd [Ha [_ [_ Hne]]]].
    destruct (In_columns_getitem _ _ Hd) as [sd Hsd].
    destruct (In_columns_getitem _ _ Ha) as [sa Hsa].
    destruct (normalize_succeeds P _ d a dt sd sa Hsd Hsa Hne Hcat)
      as [df' [s [H _]]].
    rewrite H. auto.
Qed.

(** X3. What each outcome of the normalization tells about the parsed
    table.  It is refused for holding no data exactly when it has no row or
    no column.  When it is refused for its columns, it has data, the message
    lists its trimmed column names, and no column looks like a description
    or none looks like an amount.  When the Category phase refuses it, it
    has data, a description-like and an amount-like column, and a column
    named Category.  When it normalizes, it has data, a description-like and
    an amount-like column, and no column named Category. *)
Theorem process_outcomes (P : Coercions) (df : DataFrame) :
  unique_columns df = true ->
  (process_transactions P (ReadFrame df) = Raise (ValueError NoData)
   <-> df_empty df = true)
  /\ (forall found,
         process_transactions P (ReadFrame df)
         = Raise (ValueError (ColumnsNotDetected found)) ->
         df_empty df = false
         /\ found = map strip (columns df)
         /\ (~ some_column desc_like df \/ ~ some_column amt_like df))
  /\ (process_transactions P (ReadFrame df) = Raise (ValueError ReplaceDictValue) ->
      df_empty df = false
      /\ some_column desc_like df /\ some_column amt_like df
      /\ has_column (strip_columns df) "Category" = true)
  /\ (forall r,
         process_transactions P (ReadFrame df) = Ok r ->
         df_empty df = false
         /\ some_column desc_like df /\ some_column amt_like df
         /\ has_column (strip_columns df) "Category" = false).
Proof.
  intros _. pose proof (process_decided P df) as D.
  split; [split|split; [|split]].
  - intros E. rewrite E in D. exact D.
  - intros He. unfold process_transactions. now rewrite He.
  - intros found E. rewrite E in D. exact D.
  - intros E. rewrite E in D. exact D.
  - intros r E. rewrite E in D. exact D.
Qed.

Lemma process_outcomes_witness :
  (df_empty scenario_A = false
   /\ some_column desc_like scenario_A /\ some_column amt_like scenario_A
   /\ has_column (strip_columns scenario_A) "Category" = false)
  /\ (df_empty scenario_D = false
      /\ ["Narration"; "When"] = map strip (columns scenario_D)
      /\ (~ some_column desc_like scenario_D \/ ~ some_column amt_like scenario_D))
  /\ (df_empty with_category = false
      /\ some_column desc_like with_category /\ some_column amt_like with_category
      /\ has_column (strip_columns with_category) "Category" = true)
  /\ process_transactions plain_coercions (ReadFrame header_only)
     = Raise (ValueError NoData).
Proof.
  split; [|split; [|split]].
  - apply (proj2 (proj2 (proj2
             (process_outcomes plain_coercions scenario_A eq_refl)))
             (normalized plain_coercions scenario_A)).
    reflexivity.
  - apply (proj1 (proj2 (process_outcomes plain_coercions scenario_D eq_refl))).
    reflexivity.
  - apply (proj1 (proj2 (proj2
             (process_outcomes plain_coercions with_category eq_refl)))).
    reflexivity.
  - apply (proj1 (process_outcomes plain_coercions header_only eq_refl)).
    reflexivity.
Defined.

(** ** The canonical rows *)

Lemma process_frame (P : Coercions) (df df' : DataFrame) (s : Summary) :
  process_transactions P (ReadFrame df) = Ok (df', s) ->
  exists d a dt sd sa,
    _detect_columns (strip_columns df) = (Some d, Some a, dt)
    /\ df_getitem (strip_columns df) d = Ok sd
    /\ df_getitem (strip_columns df) a = Ok sa
    /\ a <> "Description"
    /\ nrows (strip_columns df) <> 0%nat
    /\ normalize P (strip_columns df) d a dt = Ok (df', s).
Proof.
  intros H. destruct (process_Ok_detected P df _ H) as [He [d [a [dt Hdet]]]].
  rewrite (process_normalize P df d a dt He Hdet) in H.
  destruct (detected_columns _ _ _ _ Hdet) as [Hd [Ha [_ [_ Hne]]]].
  destruct (In_columns_getitem _ _ Hd) as [sd Hsd].
  destruct (In_columns_getitem _ _ Ha) as [sa Hsa].
  exists d, a, dt, sd, sa. repeat (split; [assumption|]). split; [|exact H].
  unfold df_empty in He. apply orb_false_iff in He as [He _].
  now apply Nat.eqb_neq in He.
Qed.

(** X4. Every row of a normalized table is a canonical transaction: the row
    count is kept (in the frame and in the summary), every Description cell
    is a string, the empty string for an empty source cell and the source
    text itself for a text cell, and every Amount cell is a number (never
    missing). *)
Theorem canonical_rows (P : Coercions) (df df' : DataFrame) (s : Summary) :
  unique_columns df = true ->
  process_transactions P (ReadFrame df) = Ok (df', s) ->
  nrows df' = nrows df /\ rows s = nrows df
  /\ exists d source desc amount,
       fst (fst (_detect_columns (strip_columns df))) = Some d
       /\ df_getitem (strip_columns df) d = Ok source
       /\ df_getitem df' "Description" = Ok (Objects desc)
       /\ df_getitem df' "Amount" = Ok (Floats amount)
       /\ forall i,
            (exists t, desc i = CStr t)
            /\ (cell_at P source i = CNull -> desc i = CStr EmptyString)
            /\ (forall t, cell_at P source i = CStr t -> desc i = CStr t)
            /\ (exists q, amount i = Some q).
Proof.
  intros _ H.
  destruct (process_frame P df df' s H)
    as [d [a [dt [sd [sa [Hdet [Hsd [Hsa [Hne [Hn Hnorm]]]]]]]]]].
  destruct (normalize_frame P _ d a dt sd sa df' s Hsd Hsa Hne Hn Hnorm)
    as [amount [[Hrows _] [_ [Hres [Hdesc [Hamt [_ [_ [Hr _]]]]]]]]].
  split; [exact Hrows|]. split; [exact Hr|].
  exists d, sd, (fun i => CStr (fillna_astype_str P sd i)), amount.
  split; [now rewrite Hdet|]. repeat (split; [assumption|]).
  intros i. split; [eauto|]. unfold fillna_astype_str.
  split; [now intros ->|]. split; [now intros t ->|].
  destruct Hres as [[dc [cc [debit [credit [_ [_ [_ [_ [_ Hv]]]]]]]]] | [_ Hv]];
    rewrite Hv; eauto.
Qed.

Lemma canonical_rows_witness :
  let t := normalized plain_coercions signed_with_debit_credit in
  nrows (fst t) = nrows signed_with_debit_credit
  /\ rows (snd t) = nrows signed_with_debit_credit
  /\ exists d source desc amount,
       fst (fst (_detect_columns (strip_columns signed_with_debit_credit)))
       = Some d
       /\ df_getitem (strip_columns signed_with_debit_credit) d = Ok source
       /\ df_getitem (fst t) "Description" = Ok (Objects desc)
       /\ df_getitem (fst t) "Amount" = Ok (Floats amount)
       /\ forall i,
            (exists x, desc i = CStr x)
            /\ (cell_at plain_coercions source i = CNull
                -> desc i = CStr EmptyString)
            /\ (forall x, cell_at plain_coercions source i = CStr x
                          -> desc i = CStr x)
            /\ (exists q, amount i = Some q).
Proof.
  intros t.
  apply (canonical_rows plain_coercions signed_with_debit_credit); reflexivity.
Defined.

(** X5. The normalization assigns the columns Description, Amount, Month
    and Category (and Date when a date column is found) and leaves every
    other column of the trimmed table as it was. *)
Theorem other_columns_kept (P : Coercions) (df df' : DataFrame) (s : Summary) :
  unique_columns df = true ->
  process_transactions P (ReadFrame df) = Ok (df', s) ->
  (forall c, ~ In c canonical_columns ->
             df_getitem df' c = df_getitem (strip_columns df) c)
  /\ has_column df' "Description" = true /\ has_column df' "Amount" = true
  /\ has_column df' "Month" = true /\ has_column df' "Category" = true
  /\ (has_column df' "Date" = true <->
      snd (_detect_columns (strip_columns df)) <> None).
Proof.
  intros _ H.
  destruct (process_frame P df df' s H)
    as [d [a [dt [sd [sa [Hdet [Hsd [Hsa [Hne [Hn Hnorm]]]]]]]]]].
  destruct (normalize_frame P _ d a dt sd sa df' s Hsd Hsa Hne Hn Hnorm)
    as [amount [[_ Hsame] [_ [_ [Hdesc [Hamt [Hcat [_ [_
         [df3 [Hse3 Hdate]]]]]]]]]]].
  split; [exact Hsame|].
  split; [eapply getitem_has_column; exact Hdesc|].
  split; [eapply getitem_has_column; exact Hamt|].
  assert (Hc3 : forall c, date_like c = true ->
                          df_getitem df3 c = df_getitem (strip_columns df) c).
  { intros c Hc. destruct Hse3 as [_ Hs3]. apply Hs3.
    intros [<-|[<-|[]]]; discriminate. }
  rewrite Hdet. cbn [snd].
  destruct Hdate as [[df4 [w [E4 [Hw4 [Hw [Hm _]]]]]] | [E4 [Hno3 [Hno [Hm _]]]]].
  - split; [eapply getitem_has_column; exact Hm|].
    split; [eapply getitem_has_column; exact Hcat|].
    split; [|intros _; eapply getitem_has_column; exact Hw].
    intros _ ->.
    assert (Hcands : forall cand, In cand date_fallback_names ->
                                  has_column df3 cand = false).
    { intros cand Hin.
      rewrite (same_except_has_column _ _ _ _ Hse3).
      - apply no_date_candidates; [now rewrite Hdet | exact Hin].
      - simpl in Hin. simpl. intuition (subst; discriminate). }
    rewrite (assign_date_absent P df3 Hcands) in E4. inversion E4; subst df4.
    apply getitem_has_column in Hw4. rewrite Hcands in Hw4; [discriminate|].
    now left.
  - split; [eapply getitem_has_column; exact Hm|].
    split; [eapply getitem_has_column; exact Hcat|].
    rewrite Hno. split; [discriminate|]. intros Hdt. exfalso.
    destruct dt as [c|]; [|congruence].
    destruct (detect_date (strip_columns df) c) as [Hin Hlike];
      [now rewrite Hdet|].
    rewrite strip_stripped_columns in Hin.
    destruct (In_columns_getitem _ _ Hin) as [sc Hsc].
    rewrite <- (Hc3 c Hlike) in Hsc.
    assert (Ht : truthy_str c = true).
    { destruct c; [discriminate | reflexivity]. }
    rewrite (assign_date_detected P df3 c sc Ht Hsc) in E4.
    inversion E4 as [E]. rewrite <- E in Hno3 at 1.
    rewrite has_column_setitem in Hno3. discriminate.
Qed.

Lemma other_columns_kept_witness :
  let r := normalized plain_coercions one_bad_date in
  (forall c, ~ In c canonical_columns ->
             df_getitem (fst r) c = df_getitem (strip_columns one_bad_date) c)
  /\ has_column (fst r) "Description" = true
  /\ has_column (fst r) "Amount" = true
  /\ has_column (fst r) "Month" = true /\ has_column (fst r) "Category" = true
  /\ (has_column (fst r) "Date" = true <->
      snd (_detect_columns (strip_columns one_bad_date)) <> None).
Proof.
  apply (other_columns_kept plain_coercions one_bad_date
           (fst (normalized plain_coercions one_bad_date))
           (snd (normalized plain_coercions one_bad_date))); reflexivity.
Defined.

(** ** The summaries as dictionaries *)

Lemma categorize_label (P : Coercions) (c : Cell) :
  In (categorize P c) category_labels.
Proof.
  unfold categorize, category_labels.
  destruct c as [|q|t]; [simpl; auto 10| |];
    repeat match goal with
           | |- context [if ?b then _ else _] => destruct b
           end; simpl; auto 10.
Qed.

Lemma compare_refl (s : string) : String.compare s s = Eq.
Proof.
  pose proof (String.compare_antisym s s) as H.
  destruct (String.compare s s); simpl in H; congruence.
Qed.

Lemma bucket_add_keys (k k' : string) (v : Q) (m : list (string * Q)) :
  In k (map fst (bucket_add k' v m)) <-> k = k' \/ In k (map fst m).
Proof.
  induction m as [|[k0 v0] m IH]; simpl.
  - intuition.
  - destruct (String.compare k' k0) eqn:E; simpl.
    + apply String.compare_eq_iff in E. subst k0. intuition.
    + intuition.
    + rewrite IH. intuition.
Qed.

Lemma group_sum_keys (n : nat) (keys : nat -> option string)
  (v : nat -> option Q) (k : string) :
  In k (map fst (group_sum n keys v))
  <-> exists i, (i < n)%nat /\ keys i = Some k.
Proof.
  unfold group_sum.
  assert (G : forall l m,
    In k (map fst
            (fold_left (fun m i =>
                          match keys i with
                          | Some k => bucket_add k (nan_to_zero (v i)) m
                          | None => m
                          end) l m))
    <-> In k (map fst m) \/ exists i, In i l /\ keys i = Some k).
  { induction l as [|i l IH]; intros m; simpl.
    - split; [auto | intros [H | [i [[] _]]]; exact H].
    - rewrite IH. destruct (keys i) as [k'|] eqn:E.
      + rewrite bucket_add_keys. split.
        * intros [[-> | H] | [j [Hj Hk]]]; eauto.
        * intros [H | [j [[<- | Hj] Hk]]]; eauto.
          left; left. congruence.
      + split.
        * intros [H | [j [Hj Hk]]]; eauto.
        * intros [H | [j [[<- | Hj] Hk]]]; eauto. congruence. }
  rewrite G. simpl. split.
  - intros [[] | [i [Hi Hk]]]. exists i. split; auto. apply in_seq in Hi. lia.
  - intros [i [Hi Hk]]. right. exists i. split; auto. apply in_seq. lia.
Qed.

Lemma keys_increasing_NoDup (m : list (string * Q)) :
  keys_increasing m -> NoDup (map fst m).
Proof.
  induction 1 as [|p m Hs IH Hf]; simpl; constructor; auto.
  intros Hin. apply in_map_iff in Hin as [q [Hq Hin]].
  rewrite Forall_forall in Hf. specialize (Hf q Hin).
  unfold key_lt in Hf. rewrite Hq, compare_refl in Hf. discriminate.
Qed.

(** X6. In a normalized table every Category cell is the label the
    categorizer gives the description of its row, one of the seven labels.
    The keys of the category summary are exactly the labels that occur in
    the table, each once and in increasing order: at most seven entries. *)
Theorem categories_are_labels (P : Coercions) (df df' : DataFrame) (s : Summary) :
  unique_columns df = true ->
  process_transactions P (ReadFrame df) = Ok (df', s) ->
  exists desc cat,
    df_getitem df' "Description" = Ok (Objects desc)
    /\ df_getitem df' "Category" = Ok (Objects cat)
    /\ (forall i, cat i = CStr (categorize P (desc i))
                  /\ In (categorize P (desc i)) category_labels)
    /\ (forall k, In k (map fst (category_summary s))
                  <-> exists i, (i < nrows df)%nat /\ cat i = CStr k)
    /\ incl (map fst (category_summary s)) category_labels
    /\ keys_increasing (category_summary s)
    /\ (length (category_summary s) <= 7)%nat.
Proof.
  intros _ H.
  destruct (process_frame P df df' s H)
    as [d [a [dt [sd [sa [Hdet [Hsd [Hsa [Hne [Hn Hnorm]]]]]]]]]].
  destruct (normalize_frame P _ d a dt sd sa df' s Hsd Hsa Hne Hn Hnorm)
    as [amount [_ [_ [_ [Hdesc [_ [Hcat [Hsum _]]]]]]]].
  set (desc := fun i => CStr (fillna_astype_str P sd i)) in *.
  exists desc, (fun i => CStr (categorize P (desc i))).
  split; [exact Hdesc|]. split; [exact Hcat|].
  split; [intros i; split; [reflexivity | apply categorize_label]|].
  assert (Hkeys : forall k, In k (map fst (category_summary s))
                  <-> exists i, (i < nrows df)%nat
                                /\ CStr (categorize P (desc i)) = CStr k).
  { intros k. rewrite Hsum, group_sum_keys. cbn [nrows strip_columns].
    split; intros [i [Hi Hk]]; exists i; (split; [exact Hi|]).
    - change (Some (categorize P (desc i)) = Some k) in Hk. congruence.
    - change (Some (categorize P (desc i)) = Some k). congruence. }
  split; [exact Hkeys|].
  assert (Hincl : incl (map fst (category_summary s)) category_labels).
  { intros k Hk. apply Hkeys in Hk as [i [_ Hk]].
    assert (E : categorize P (desc i) = k) by congruence.
    rewrite <- E. apply categorize_label. }
  split; [exact Hincl|].
  assert (Hinc : keys_increasing (category_summary s)).
  { rewrite Hsum. apply group_sum_increasing. }
  split; [exact Hinc|].
  rewrite <- (length_map fst).
  apply (NoDup_incl_length (keys_increasing_NoDup _ Hinc) Hincl).
Qed.

Lemma categories_are_labels_witness :
  let r := normalized plain_coercions all_dated in
  exists desc cat,
    df_getitem (fst r) "Description" = Ok (Objects desc)
    /\ df_getitem (fst r) "Category" = Ok (Objects cat)
    /\ (forall i, cat i = CStr (categorize plain_coercions (desc i))
                  /\ In (categorize plain_coercions (desc i)) category_labels)
    /\ (forall k, In k (map fst (category_summary (snd r)))
                  <-> exists i, (i < nrows all_dated)%nat /\ cat i = CStr k)
    /\ incl (map fst (category_summary (snd r))) category_labels
    /\ keys_increasing (category_summary (snd r))
    /\ (length (category_summary (snd r)) <= 7)%nat.
Proof.
  apply (categories_are_labels plain_coercions all_dated); reflexivity.
Defined.















(** ** Dates and months *)

(** X8. When the detector finds no date column, the normalized table gets no
    Date column, Month is empty on every row and the monthly summary is
    empty: the names tried by lines 126-132 are never found, the detector
    having looked for them already. *)
Theorem undated_table (P : Coercions) (df df' : DataFrame) (s : Summary) :
  unique_columns df = true ->
  snd (_detect_columns (strip_columns df)) = None ->
  process_transactions P (ReadFrame df) = Ok (df', s) ->
  has_column df' "Date" = false
  /\ df_getitem df' "Month" = Ok (Objects (fun _ => CNull))
  /\ monthly_summary s = [].
Proof.
  intros _ Hnone H.
  destruct (process_frame P df df' s H)
    as [d [a [dt [sd [sa [Hdet [Hsd [Hsa [Hne [Hn Hnorm]]]]]]]]]].
  rewrite Hdet in Hnone. simpl in Hnone. subst dt.
  destruct (normalize_frame P _ d a None sd sa df' s Hsd Hsa Hne Hn Hnorm)
    as [amount [_ [_ [_ [_ [Hamt [_ [_ [_ [df3 [Hse3 Hdate]]]]]]]]]]].
  cbn [nrows strip_columns] in Hdate.
  assert (Hcands : forall cand, In cand date_fallback_names ->
                                has_column df3 cand = false).
  { intros cand Hin.
    rewrite (same_except_has_column _ _ _ _ Hse3).
    - apply no_date_candidates; [now rewrite Hdet | exact Hin].
    - simpl in Hin. simpl. intuition (subst; discriminate). }
  destruct Hdate as [[df4 [w [E4 [Hw4 _]]]] | [_ [_ [Hno [Hm Hms]]]]]; auto.
  rewrite (assign_date_absent P df3 Hcands) in E4. inversion E4; subst df4.
  apply getitem_has_column in Hw4. rewrite Hcands in Hw4; [discriminate|].
  now left.
Qed.

Lemma undated_table_witness :
  let r := normalized plain_coercions scenario_A in
  has_column (fst r) "Date" = false
  /\ df_getitem (fst r) "Month" = Ok (Objects (fun _ => CNull))
  /\ monthly_summary (snd r) = [].
Proof.
  apply (undated_table plain_coercions scenario_A); reflexivity.
Defined.

(** ** The upload and the query, together *)

Lemma endswith_uploads (name : string) :
  endswith (lower (os_path_join "uploads" name)) ".csv"
  = endswith (lower name) ".csv".
Proof.
  unfold os_path_join. destruct (prefix "/" name); reflexivity.
Qed.

(** X9. An upload is read with the CSV reader exactly when its name ends in
    .csv, case ignored, and with the workbook reader otherwise, whatever
    directory the name points to. *)
Theorem read_routing (d : Disk) (fs : list (string * list Byte.byte))
  (name : string) (bytes : list Byte.byte) :
  assoc (os_path_join "uploads" name) fs = Some bytes ->
  read_table d fs (os_path_join "uploads" name)
  = if endswith (lower name) ".csv" then read_csv d bytes
    else read_excel d bytes.
Proof.
  intros H. unfold read_table. rewrite H.
  now rewrite (endswith_uploads name).
Qed.

Lemma read_routing_witness :
  read_table sound_disk [("uploads/Statement.CSV", sample_bytes)]
    (os_path_join "uploads" "Statement.CSV")
  = ReadFrame scenario_A.
Proof.
  apply (read_routing sound_disk [("uploads/Statement.CSV", sample_bytes)]
           "Statement.CSV" sample_bytes).
  reflexivity.
Defined.

(** X11. After an upload that reports success and whose dataset was
    written, a query with a credential works on the normalized table of
    that upload: it is never answered 404 or 500, but 502 when the call to
    the model fails and with the question and the answer otherwise. *)
Theorem query_after_upload (P : Coercions) (d : Disk) (w : World)
  (file : UploadFile) (cfg : Config) (sv : Services) (q : string)
  (body : UploadBody) :
  snd (upload_excel P d w file) = JSON body ->
  to_pickle_error d = None ->
  client_is_none cfg = false ->
  exists df,
    process_transactions P
      (read_table d
         (set_assoc (os_path_join "uploads" (upload_name file)) (content file)
            (files w))
         (os_path_join "uploads" (upload_name file)))
    = Ok (df, summary body)
    /\ pickle (fst (upload_excel P d w file)) = Saved df
    /\ query_financial cfg sv (fst (upload_excel P d w file)) q
       = match ask_ai cfg sv df q with
         | inl e => HTTPException 502 (AskFailed e)
         | inr ans => JSON {| question := q; answer := ans |}
         end.
Proof.
  intros Hb Hp Hc. revert Hb. unfold upload_excel.
  destruct (negb (existsb _ supported_extensions)); [discriminate|].
  destruct (save_error d); [discriminate|]. cbn [files pickle].
  destruct (process_transactions P _) as [[df sm]|e] eqn:E.
  - rewrite Hp. cbn [fst snd]. intros Hb. inversion Hb; subst body; clear Hb.
    exists df. cbn [summary]. split; [reflexivity|]. split; [reflexivity|].
    unfold query_financial. rewrite Hc. reflexivity.
  - destruct e; discriminate.
Qed.

Lemma query_after_upload_witness :
  exists df,
    process_transactions plain_coercions
      (read_table sound_disk
         (set_assoc (os_path_join "uploads" (upload_name statement_csv))
            (content statement_csv) (files empty_world))
         (os_path_join "uploads" (upload_name statement_csv)))
    = Ok (df, snd (normalized plain_coercions scenario_A))
    /\ pickle (fst (upload_excel plain_coercions sound_disk empty_world
                      statement_csv)) = Saved df
    /\ query_financial full_config echo_services
         (fst (upload_excel plain_coercions sound_disk empty_world statement_csv))
         "How much did I spend?"
       = match ask_ai full_config echo_services df "How much did I spend?" with
         | inl e => HTTPException 502 (AskFailed e)
         | inr ans => JSON {| question := "How much did I spend?"; answer := ans |}
         end.
Proof.
  apply (query_after_upload plain_coercions sound_disk empty_world statement_csv
           full_config echo_services "How much did I spend?"
           {| message := "File uploaded & processed successfully!";
              summary := snd (normalized plain_coercions scenario_A) |});
    reflexivity.
Defined.

(** ** The call to the model *)

Lemma contains_trans (a b s : string) :
  contains a b = true -> contains b s = true -> contains a s = true.
Proof.
  rewrite !contains_app. intros [p1 [q1 ->]] [p2 [q2 ->]].
  exists (p2 ++ p1), (q1 ++ q2). now rewrite !append_assoc.
Qed.

Lemma decommission_test (msg : string) :
  contains "decommission" (lower msg)
  || contains "model_decommissioned" (lower msg)
  = contains "decommission" (lower msg).
Proof.
  destruct (contains "decommission" (lower msg)) eqn:E; [reflexivity|].
  destruct (contains "model_decommissioned" (lower msg)) eqn:E'; [|reflexivity].
  rewrite (contains_trans "decommission" "model_decommissioned" _ eq_refl E') in E.
  discriminate.
Qed.

Lemma configured_dec (cfg : Config) :
  client_is_none cfg || negb (truthy (GROQ_MODEL cfg)) = false <-> configured cfg.
Proof.
  unfold configured. rewrite orb_false_iff, negb_false_iff. reflexivity.
Qed.

(** X12. [ask_ai] raises its configuration error exactly when the client or
    the model identifier is missing, and then without calling the model.
    When the service is configured and the call to the model raises, or the
    first choice of its response cannot be taken, the exception is reported
    as a retired model when its message contains decommission, case ignored,
    and as a failed request otherwise, with that very message in both
    cases; [ask_ai] raises nothing else. *)
Theorem ask_ai_errors (cfg : Config) (sv : Services) (df : DataFrame) (q : string) :
  (~ configured cfg -> ask_ai cfg sv df q = inl NotConfigured)
  /\ (forall e, ask_ai cfg sv df q = inl e ->
        match e with
        | NotConfigured => ~ configured cfg
        | Decommissioned msg =>
            configured cfg /\ occurs_ignoring_case "decommission" msg
        | RequestFailed msg =>
            configured cfg /\ ~ occurs_ignoring_case "decommission" msg
        end)
  /\ (configured cfg ->
      forall m msg,
        GROQ_MODEL cfg = Some m ->
        (create_completion sv m (build_prompt (df_json_of sv df) q)
         = CompletionRaises msg
         \/ exists response,
              create_completion sv m (build_prompt (df_json_of sv df) q)
              = CompletionReturns response
              /\ extract_content response = None
              /\ msg = subscript_error sv) ->
        (occurs_ignoring_case "decommission" msg ->
         ask_ai cfg sv df q = inl (Decommissioned msg))
        /\ (~ occurs_ignoring_case "decommission" msg ->
            ask_ai cfg sv df q = inl (RequestFailed msg))).
Proof.
  unfold ask_ai.
  destruct (client_is_none cfg || negb (truthy (GROQ_MODEL cfg))) eqn:Ec.
  - assert (Hn : ~ configured cfg).
    { rewrite <- configured_dec, Ec. discriminate. }
    split; [reflexivity|]. split.
    + intros e H. inversion H; subst e. exact Hn.
    + intros Hc. contradiction.
  - apply configured_dec in Ec as Hc. split; [intros Hn; contradiction|].
    split.
    + assert (Hclass : forall msg e,
        inl (if contains "decommission" (lower msg)
                || contains "model_decommissioned" (lower msg)
             then Decommissioned msg else RequestFailed msg)
        = @inl RuntimeError Py e ->
        match e with
        | NotConfigured => ~ configured cfg
        | Decommissioned msg =>
            configured cfg /\ occurs_ignoring_case "decommission" msg
        | RequestFailed msg =>
            configured cfg /\ ~ occurs_ignoring_case "decommission" msg
        end).
      { intros msg e. rewrite decommission_test.
        destruct (contains "decommission" (lower msg)) eqn:E;
          intros H; inversion H; subst e; (split; [exact Hc|]).
        - now apply contains_lower.
        - rewrite <- contains_lower, E. discriminate. }
      intros e.
      destruct (create_completion sv _ _) as [msg|response]; [apply Hclass|].
      destruct (extract_content response) as [content|]; [|apply Hclass].
      destruct (py_truthy content); discriminate.
    + intros _ m msg Hm Hcause. rewrite Hm.
      assert (Hfailed :
        (occurs_ignoring_case "decommission" msg ->
         @inl RuntimeError Py
           (if contains "decommission" (lower msg)
               || contains "model_decommissioned" (lower msg)
            then Decommissioned msg else RequestFailed msg)
         = inl (Decommissioned msg))
        /\ (~ occurs_ignoring_case "decommission" msg ->
            @inl RuntimeError Py
              (if contains "decommission" (lower msg)
                  || contains "model_decommissioned" (lower msg)
               then Decommissioned msg else RequestFailed msg)
            = inl (RequestFailed msg))).
      { rewrite decommission_test, <- contains_lower.
        destruct (contains "decommission" (lower msg)); split; intros H;
          congruence. }
      destruct Hcause as [E | [response [E [Ex ->]]]]; rewrite E;
        [exact Hfailed|]. rewrite Ex. exact Hfailed.
Qed.

Lemma ask_ai_errors_witness :
  ask_ai no_key echo_services scenario_A "How much did I spend?"
  = inl NotConfigured
  /\ (configured full_config
      /\ occurs_ignoring_case "decommission" "The model has been DECOMMISSIONED")
  /\ ask_ai full_config retired_services scenario_A "How much did I spend?"
     = inl (Decommissioned "The model has been DECOMMISSIONED").
Proof.
  split; [|split].
  - apply (proj1 (ask_ai_errors no_key echo_services scenario_A
                    "How much did I spend?")).
    intros [H _]. discriminate H.
  - apply (proj1 (proj2 (ask_ai_errors full_config retired_services scenario_A
                           "How much did I spend?"))
             (Decommissioned "The model has been DECOMMISSIONED")).
    reflexivity.
  - apply (proj2 (proj2 (ask_ai_errors full_config retired_services scenario_A
                           "How much did I spend?"))
             (conj eq_refl eq_refl) "llama"
             "The model has been DECOMMISSIONED" eq_refl
             (or_introl eq_refl)).
    apply contains_lower. reflexivity.
Defined.

(** X13. [ask_ai] returns an answer only when the service is configured and
    the call to the model returned.  The answer is then the content found
    in the first choice of the response when that content is truthy, and
    the printed response itself, whatever it is, when the content found is
    missing or empty. *)
Theorem ask_ai_answer (cfg : Config) (sv : Services) (df : DataFrame)
  (q : string) :
  (forall a,
      ask_ai cfg sv df q = inr a ->
      configured cfg
      /\ exists m response,
           GROQ_MODEL cfg = Some m
           /\ create_completion sv m (build_prompt (df_json_of sv df) q)
              = CompletionReturns response
           /\ ((extract_content response = Some a /\ py_truthy a = true)
               \/ (a = PyStr (str_of_response sv response)
                   /\ exists c, extract_content response = Some c
                                /\ py_truthy c = false)))
  /\ (configured cfg ->
      forall m response c,
        GROQ_MODEL cfg = Some m ->
        create_completion sv m (build_prompt (df_json_of sv df) q)
        = CompletionReturns response ->
        extract_content response = Some c ->
        ask_ai cfg sv df q
        = inr (if py_truthy c then c
               else PyStr (str_of_response sv response))).
Proof.
  unfold ask_ai.
  destruct (client_is_none cfg || negb (truthy (GROQ_MODEL cfg))) eqn:Ec.
  { split; [discriminate|]. intros Hc. apply configured_dec in Hc. congruence. }
  apply configured_dec in Ec as Hc. split.
  - intros a H. split; [exact Hc|].
    destruct Hc as [_ Hm]. destruct (GROQ_MODEL cfg) as [m|]; [|discriminate].
    exists m.
    destruct (create_completion sv m _) as [msg|response] eqn:E.
    { destruct (contains _ _ || contains _ _); discriminate. }
    exists response. split; [reflexivity|]. split; [reflexivity|].
    destruct (extract_content response) as [content|].
    2:{ destruct (contains _ _ || contains _ _); discriminate. }
    destruct (py_truthy content) eqn:Et; inversion H; subst a.
    + left. auto.
    + right. split; [reflexivity|]. now exists content.
  - intros _ m response c Hm E Ex. rewrite Hm, E, Ex.
    now destruct (py_truthy c).
Qed.

Lemma ask_ai_answer_witness :
  (configured full_config
   /\ exists m response,
        GROQ_MODEL full_config = Some m
        /\ create_completion echo_services m
             (build_prompt (df_json_of echo_services scenario_A)
                "How much did I spend?")
           = CompletionReturns response
        /\ ((extract_content response = Some (PyStr "42")
             /\ py_truthy (PyStr "42") = true)
            \/ (PyStr "42" = PyStr (str_of_response echo_services response)
                /\ exists c, extract_content response = Some c
                             /\ py_truthy c = false)))
  /\ ask_ai full_config echo_services scenario_A "How much did I spend?"
     = inr (PyStr "42").
Proof.
  split.
  - apply (proj1 (ask_ai_answer full_config echo_services scenario_A
                    "How much did I spend?") (PyStr "42")).
    reflexivity.
  - apply (proj2 (ask_ai_answer full_config echo_services scenario_A
                    "How much did I spend?") (conj eq_refl eq_refl)
             "llama" _ (PyStr "42") eq_refl eq_refl eq_refl).
Defined.

(** X14. The serialized table handed to the model is longer than the
    ceiling of 35000 characters exactly when both the whole table and its
    last 200 rows serialize to more than that: the second serialization is
    sent without being measured. *)
Theorem payload_over_ceiling (sv : Services) (df : DataFrame) :
  (35000 < N.of_nat (String.length (df_json_of sv df)))%N
  <-> exists js js',
        to_json sv df = Some js
        /\ (35000 < N.of_nat (String.length js))%N
        /\ to_json sv (df_tail 200 df) = Some js'
        /\ (35000 < N.of_nat (String.length js'))%N
        /\ df_json_of sv df = js'.
Proof.
  unfold df_json_of. split.
  - destruct (to_json sv df) as [js|]; [|intros H; vm_compute in H; discriminate].
    destruct (35000 <? N.of_nat (String.length js))%N eqn:E.
    + apply N.ltb_lt in E.
      destruct (to_json sv (df_tail 200 df)) as [js'|];
        [|intros H; vm_compute in H; discriminate].
      intros H. exists js, js'. auto.
    + intros H. apply N.ltb_lt in H. congruence.
  - intros [js [js' [-> [H1 [-> [H2 _]]]]]].
    apply N.ltb_lt in H1. now rewrite H1.
Qed.

Lemma prompt_shape (df_json user_question : string) :
  exists head middle tail,
    build_prompt df_json user_question
    = head ++ df_json ++ middle ++ (dquote ++ user_question ++ dquote) ++ tail.
Proof.
  exists (String.concat EmptyString
            [ "You are a Financial Spending Analysis AI."; newline;
              "You are given a user's bank transaction history in JSON format:";
              newline; newline ]),
         (String.concat EmptyString [newline; newline; "The user asks: "]).
  eexists. unfold build_prompt. cbn [String.concat].
  rewrite !append_assoc. cbn [append]. reflexivity.
Qed.

(** X15. The prompt holds the serialized table and the question as they
    are, the question between double quotes: nothing of either is escaped
    or cut. *)
Theorem prompt_embeds_verbatim (df_json user_question : string) :
  contains df_json (build_prompt df_json user_question) = true
  /\ contains (dquote ++ user_question ++ dquote)
       (build_prompt df_json user_question) = true.
Proof.
  destruct (prompt_shape df_json user_question) as [h [m [t ->]]].
  split; apply contains_app.
  - now exists h, (m ++ (dquote ++ user_question ++ dquote) ++ t).
  - exists (h ++ df_json ++ m), t. now rewrite !append_assoc.
Qed.

(** ** Masking the credential in the start-up log *)

Lemma length_app_str (a b : string) :
  String.length (a ++ b) = (String.length a + String.length b)%nat.
Proof. induction a as [|c a IH]; simpl; [reflexivity | now rewrite IH]. Qed.

Lemma substring_0_app (a r : string) :
  substring 0 (String.length a) (a ++ r) = a.
Proof.
  induction a as [|c a IH]; simpl; [now destruct r | now rewrite IH].
Qed.

Lemma substring_skip_app (a r : string) (n : nat) :
  substring (String.length a) n (a ++ r) = substring 0 n r.
Proof. induction a as [|c a IH]; simpl; [reflexivity | exact IH]. Qed.

Lemma substring_whole (b : string) : substring 0 (String.length b) b = b.
Proof. induction b as [|c b IH]; simpl; [reflexivity | now rewrite IH]. Qed.

(** X16. The masked credential of the start-up log shows the first four and
    the last four characters of a credential of more than eight characters
    and nothing of what lies between; a shorter credential is shown as four
    stars whatever it is, and a missing or empty one gives no mask. *)
Theorem mask_hides_middle :
  (forall a mid b,
      String.length a = 4%nat -> String.length b = 4%nat -> mid <> EmptyString ->
      _mask (Some (a ++ mid ++ b)) = Some (a ++ "..." ++ b))
  /\ (forall x, x <> EmptyString -> (String.length x <= 8)%nat ->
                _mask (Some x) = Some "****")
  /\ _mask None = None /\ _mask (Some EmptyString) = None.
Proof.
  split; [|split; [|split; reflexivity]].
  - intros a mid b Ha Hb Hmid. unfold _mask.
    assert (Hlen : String.length (a ++ mid ++ b)
                   = (String.length (a ++ mid) + 4)%nat).
    { rewrite !length_app_str. lia. }
    assert (Hmid' : (1 <= String.length mid)%nat).
    { destruct mid; [contradiction | simpl; lia]. }
    assert (Ht : truthy_str (a ++ mid ++ b) = true).
    { destruct a; [discriminate | reflexivity]. }
    rewrite Ht. cbn [negb].
    assert (Hgt : (8 <? String.length (a ++ mid ++ b))%nat = true).
    { apply Nat.ltb_lt. rewrite Hlen, length_app_str. lia. }
    rewrite Hgt. f_equal. f_equal.
    + rewrite <- Ha. apply substring_0_app.
    + f_equal. unfold last_chars. rewrite Hlen.
      replace (String.length (a ++ mid) + 4 - 4)%nat
        with (String.length (a ++ mid)) by lia.
      rewrite <- append_assoc, substring_skip_app, <- Hb.
      apply substring_whole.
  - intros x Hx Hlen. unfold _mask.
    destruct x as [|c x]; [contradiction|]. cbn [truthy_str negb].
    apply Nat.leb_le in Hlen. rewrite Nat.ltb_antisym, Hlen. reflexivity.
Qed.

Lemma mask_hides_middle_witness :
  _mask (Some ("gsk_" ++ "secretsecret" ++ "9f3a")) = Some ("gsk_" ++ "..." ++ "9f3a")
  /\ _mask (Some "short") = Some "****".
Proof.
  split.
  - apply (proj1 mask_hides_middle); [reflexivity | reflexivity | discriminate].
  - apply (proj1 (proj2 mask_hides_middle)); [discriminate | simpl; lia].
Defined.
